(** * A 9-axis AHRS on an unscented Kalman filter

    A shallow embedding of [examples/ahrs/ahrs.cpp]: the field layout of the
    two state vectors, the process and measurement models, the tuning set up
    by [ukf_init], the flat accessors, and the driver [ukf_iterate] that
    couples the AHRS filter with the sensor-parameter filter.

    [real_t] is read as the field of real numbers: every arithmetic
    operation of the source is the exact one.  The one place where a
    statement turns on rounding, the scaling of the process noise, is also
    given in double precision.  Fixed-size Eigen objects are nested tuples
    whose size is part of the type; run-time sized ones are lists of
    rows. *)

From Stdlib Require Import Reals Lra Lia List ZArith Bool Arith.
From Stdlib Require PrimFloat Uint63.
Import ListNotations.
Local Open Scope R_scope.

(** The scalar type chosen at build time ([float] or [double]). *)
Definition real_t : Type := R.

(** ** The numeric core: what the source uses of Eigen *)

Module Eigen.

(** A fixed-size column of [n] coefficients. *)
Fixpoint Vec (A : Type) (n : nat) : Type :=
  match n with
  | O => unit
  | S k => (A * Vec A k)%type
  end.

Fixpoint tabulate_from {A : Type} (f : nat -> A) (k n : nat) : Vec A n :=
  match n with
  | O => tt
  | S n' => (f k, tabulate_from f (S k) n')
  end.

(** The vector whose coefficient [i] is [f i]. *)
Definition tabulate {A : Type} (n : nat) (f : nat -> A) : Vec A n :=
  tabulate_from f 0 n.

(** Coefficient access.  Eigen asserts that the index is in range; every
    index of the source is a literal inside the static size, and the model
    answers [d] elsewhere. *)
Fixpoint coeff {A : Type} (d : A) {n : nat} : Vec A n -> nat -> A :=
  match n return Vec A n -> nat -> A with
  | O => fun _ _ => d
  | S k => fun v i =>
      match i with
      | O => fst v
      | S j => coeff d (snd v) j
      end
  end.

(** Assignment to one coefficient, [v[i] = a]. *)
Fixpoint coeffRef {A : Type} {n : nat} : Vec A n -> nat -> A -> Vec A n :=
  match n return Vec A n -> nat -> A -> Vec A n with
  | O => fun v _ _ => v
  | S k => fun v i a =>
      match i with
      | O => (a, snd v)
      | S j => (fst v, coeffRef (snd v) j a)
      end
  end.

Fixpoint vmap {A B : Type} (f : A -> B) {n : nat} : Vec A n -> Vec B n :=
  match n return Vec A n -> Vec B n with
  | O => fun _ => tt
  | S k => fun v => (f (fst v), vmap f (snd v))
  end.

Fixpoint vmap2 {A B C : Type} (f : A -> B -> C) {n : nat}
  : Vec A n -> Vec B n -> Vec C n :=
  match n return Vec A n -> Vec B n -> Vec C n with
  | O => fun _ _ => tt
  | S k => fun v w => (f (fst v) (fst w), vmap2 f (snd v) (snd w))
  end.

(** The comma initialiser [<< a, b]: the blocks one after the other. *)
Fixpoint comma {A : Type} {n m : nat} : Vec A n -> Vec A m -> Vec A (n + m) :=
  match n return Vec A n -> Vec A m -> Vec A (n + m) with
  | O => fun _ w => w
  | S k => fun v w => (fst v, comma (snd v) w)
  end.

Fixpoint sum {n : nat} : Vec R n -> R :=
  match n return Vec R n -> R with
  | O => fun _ => 0
  | S k => fun v => fst v + sum (snd v)
  end.

Definition Vector (n : nat) : Type := Vec R n.

(** A matrix is the column of its rows. *)
Definition Matrix (r c : nat) : Type := Vec (Vector c) r.

Definition Constant (n : nat) (a : R) : Vector n := tabulate n (fun _ => a).
Definition Ones (n : nat) : Vector n := Constant n 1.
Definition Zero (n : nat) : Vector n := Constant n 0.
Definition MatrixZero (r c : nat) : Matrix r c := tabulate r (fun _ => Zero c).

Definition Vector3 (x y z : R) : Vector 3 := (x, (y, (z, tt))).

Definition at_ {n : nat} (v : Vector n) (i : nat) : R := coeff 0 v i.

(** [m(i, j)]. *)
Definition mcoeff {r c : nat} (m : Matrix r c) (i j : nat) : R :=
  at_ (coeff (Zero c) (n := r) m i) j.

Definition plus {n : nat} (a b : Vector n) : Vector n := vmap2 Rplus a b.
Definition cwiseProduct {n : nat} (a b : Vector n) : Vector n :=
  vmap2 Rmult a b.

(** [v * s] and [s * v]: the scalar on the side the source writes it. *)
Definition times_scalar {n : nat} (v : Vector n) (s : R) : Vector n :=
  vmap (fun x => x * s) v.
Definition scalar_times {n : nat} (s : R) (v : Vector n) : Vector n :=
  vmap (fun x => s * x) v.

Definition mtimes_scalar {r c : nat} (m : Matrix r c) (s : R) : Matrix r c :=
  vmap (n := r) (fun row : Vector c => times_scalar row s) m.
Definition scalar_mtimes {r c : nat} (s : R) (m : Matrix r c) : Matrix r c :=
  vmap (n := r) (fun row : Vector c => scalar_times s row) m.

Definition dot {n : nat} (a b : Vector n) : R := sum (cwiseProduct a b).

(** Matrix times column vector. *)
Definition mtimes_vector {r c : nat} (m : Matrix r c) (v : Vector c) : Vector r :=
  vmap (n := r) (fun row : Vector c => dot row v) m.

(** [m.diagonal() << d]: the diagonal is overwritten, the rest is kept. *)
Definition set_diagonal {n : nat} (m : Matrix n n) (d : Vector n) : Matrix n n :=
  tabulate n (fun i =>
    tabulate n (fun j => if Nat.eqb i j then at_ d i else mcoeff m i j)).

Definition diagonal {n : nat} (m : Matrix n n) : Vector n :=
  tabulate n (fun i => mcoeff m i i).

Definition cwiseAbs {r c : nat} (m : Matrix r c) : Matrix r c :=
  vmap (n := r) (fun row : Vector c => vmap Rabs row) m.
Definition rowwise_sum {r c : nat} (m : Matrix r c) : Vector r :=
  vmap (n := r) (fun row : Vector c => sum row) m.
Definition cwiseSqrt {n : nat} (v : Vector n) : Vector n := vmap sqrt v.

(** [Eigen::Map<Matrix<3, 3>>(data)] over nine contiguous scalars.  Eigen
    stores matrices column by column, so [m(i, j) = data[i + 3 * j]]. *)
Definition Map_Matrix3 (data : Vector 9) : Matrix 3 3 :=
  tabulate 3 (fun i => tabulate 3 (fun j => at_ data (i + 3 * j))).

(** [Eigen::Map<Vector<9>>(m.data())]: the storage of a 3x3 matrix read as
    a vector, column after column. *)
Definition Map_Vector9 (m : Matrix 3 3) : Vector 9 :=
  tabulate 9 (fun k => mcoeff m (k mod 3) (k / 3)).

Definition cross (a b : Vector 3) : Vector 3 :=
  Vector3 (at_ a 1 * at_ b 2 - at_ a 2 * at_ b 1)
          (at_ a 2 * at_ b 0 - at_ a 0 * at_ b 2)
          (at_ a 0 * at_ b 1 - at_ a 1 * at_ b 0).

(** Quaternions, with the coefficients in Eigen's storage order x, y, z, w. *)
Record Quaternion : Type := Coeffs { x : R; y : R; z : R; w : R }.

(** The constructor of the source takes the scalar part first. *)
Definition Quaternion_ (w0 x0 y0 z0 : R) : Quaternion :=
  {| x := x0; y := y0; z := z0; w := w0 |}.

Definition vec (q : Quaternion) : Vector 3 := Vector3 (x q) (y q) (z q).

(** [q.vec() = v] and [q.w() = s]. *)
Definition set_vec (q : Quaternion) (v : Vector 3) : Quaternion :=
  {| x := at_ v 0; y := at_ v 1; z := at_ v 2; w := w q |}.
Definition set_w (q : Quaternion) (s : R) : Quaternion :=
  {| x := x q; y := y q; z := z q; w := s |}.

Definition conjugate (q : Quaternion) : Quaternion :=
  Quaternion_ (w q) (- x q) (- y q) (- z q).

(** The Hamilton product [a * b]. *)
Definition qtimes (a b : Quaternion) : Quaternion :=
  Quaternion_
    (w a * w b - x a * x b - y a * y b - z a * z b)
    (w a * x b + x a * w b + y a * z b - z a * y b)
    (w a * y b + y a * w b + z a * x b - x a * z b)
    (w a * z b + z a * w b + x a * y b - y a * x b).

(** [q * v] for a 3-vector [v]: the rotation of [v] by [q], computed as
    Eigen does, with two cross products. *)
Definition transformVector (q : Quaternion) (v : Vector 3) : Vector 3 :=
  let uv := cross (vec q) v in
  let uv := plus uv uv in
  plus (plus v (scalar_times (w q) uv)) (cross (vec q) uv).

(** Matrices whose size is known at run time only: the list of the rows. *)
Definition MatrixX : Type := list (list R).

Definition xcoeff (m : MatrixX) (i j : nat) : R := nth j (nth i m []) 0.

Definition shape (m : MatrixX) : list nat := map (@length R) m.

Fixpoint zip_with {A B C : Type} (f : A -> B -> C) (l : list A) (l' : list B)
  : list C :=
  match l, l' with
  | a :: t, b :: t' => f a b :: zip_with f t t'
  | _, _ => []
  end.

(** [a += b].  Eigen asserts that both sides have the same size and the
    run stops otherwise: [None]. *)
Definition add_assign (a b : MatrixX) : option MatrixX :=
  if list_eq_dec Nat.eq_dec (shape a) (shape b)
  then Some (zip_with (zip_with Rplus) a b)
  else None.

End Eigen.

Import Eigen.

(** ** The filter library: what the source uses of UKF *)

Module UKF.

(** Modelled from the spec: the filter object of [UKF/Core.h], which is not
    among the sources.  It owns the mean [state] and its [covariance], keeps
    the propagated sigma points from the a-priori step for the innovation
    step, and after the innovation step exposes the residual, the innovation
    covariance and the cross covariance as public fields. *)
Record Core (S : Type) (L : nat) : Type := {
  state : S;
  covariance : Matrix L L;
  sigma_points : list S;
  residual : list R;
  innovation_covariance : MatrixX;
  cross_covariance : MatrixX
}.

Arguments state {S L} _.
Arguments covariance {S L} _.
Arguments sigma_points {S L} _.
Arguments residual {S L} _.
Arguments innovation_covariance {S L} _.
Arguments cross_covariance {S L} _.

Definition set_state {S : Type} {L : nat} (s : S) (c : Core S L) : Core S L :=
  {| state := s; covariance := covariance c; sigma_points := sigma_points c;
     residual := residual c; innovation_covariance := innovation_covariance c;
     cross_covariance := cross_covariance c |}.

Definition set_covariance {S : Type} {L : nat} (p : Matrix L L) (c : Core S L)
  : Core S L :=
  {| state := state c; covariance := p; sigma_points := sigma_points c;
     residual := residual c; innovation_covariance := innovation_covariance c;
     cross_covariance := cross_covariance c |}.

Definition set_innovation_covariance {S : Type} {L : nat} (m : MatrixX)
  (c : Core S L) : Core S L :=
  {| state := state c; covariance := covariance c;
     sigma_points := sigma_points c; residual := residual c;
     innovation_covariance := m; cross_covariance := cross_covariance c |}.

(** The fields of the measurement vector. *)
Inductive MeasurementKey : Type := Accelerometer | Gyroscope | Magnetometer.

Definition MeasurementKey_eqb (a b : MeasurementKey) : bool :=
  match a, b with
  | Accelerometer, Accelerometer => true
  | Gyroscope, Gyroscope => true
  | Magnetometer, Magnetometer => true
  | _, _ => false
  end.

(** Modelled from the spec: [UKF::DynamicMeasurementVector] of
    [UKF/MeasurementVector.h], an ordered append of the fields that have
    been set since it was last cleared. *)
Definition DynamicMeasurementVector : Type := list (MeasurementKey * Vector 3).

(** Modelled from the spec: [set_field] of a dynamic measurement vector
    overwrites the field when it is enabled and appends it otherwise. *)
Fixpoint set_field (k : MeasurementKey) (v : Vector 3)
  (m : DynamicMeasurementVector) : DynamicMeasurementVector :=
  match m with
  | [] => [(k, v)]
  | (k', v') :: t =>
      if MeasurementKey_eqb k k' then (k, v) :: t else (k', v') :: set_field k v t
  end.

(** Modelled from the spec: the three step methods of one instantiation of
    [UKF::Core], taken as given.  [S] is the state vector type, [I] the type
    of the exogenous input of the measurement model and [L] the covariance
    size.  The a-priori step receives the model's derivative and process
    noise covariance, the innovation step the model's expected measurement
    per field and the per-field measurement variances. *)
Class Steps (S I : Type) (L : nat) : Type := {
  a_priori_step :
    (S -> S) -> (real_t -> Matrix L L) -> real_t -> Core S L -> Core S L;
  innovation_step :
    (MeasurementKey -> S -> I -> Vector 3) -> Vector 9 ->
    DynamicMeasurementVector -> I -> Core S L -> Core S L;
  a_posteriori_step : Core S L -> Core S L
}.

End UKF.

Import UKF.

(** ** The state vectors *)

(** Value of g. *)
Definition G_ACCEL : R := 9.80665.

(** Approximate magnitude of Earth's magnetic field in microTesla. *)
Definition EARTH_MAG : R := 45.0.

(** The AHRS state vector: attitude as a quaternion (NED frame to body
    frame), angular velocity and acceleration (body frame).  [get_field] of
    a key is the projection of that name. *)
Record AHRS_StateVector : Type := {
  Attitude : Quaternion;
  AngularVelocity : Vector 3;
  Acceleration : Vector 3
}.

Definition set_Attitude (q : Quaternion) (s : AHRS_StateVector) :=
  {| Attitude := q; AngularVelocity := AngularVelocity s;
     Acceleration := Acceleration s |}.
Definition set_AngularVelocity (v : Vector 3) (s : AHRS_StateVector) :=
  {| Attitude := Attitude s; AngularVelocity := v;
     Acceleration := Acceleration s |}.
Definition set_Acceleration (v : Vector 3) (s : AHRS_StateVector) :=
  {| Attitude := Attitude s; AngularVelocity := AngularVelocity s;
     Acceleration := v |}.

(** The state vector of the parameter estimation filter: bias and scale
    factor of each sensor, the magnetometer scale factor being a 3x3 matrix
    kept as nine free parameters. *)
Record AHRS_SensorErrorVector : Type := {
  AccelerometerBias : Vector 3;
  AccelerometerScaleFactor : Vector 3;
  GyroscopeBias : Vector 3;
  GyroscopeScaleFactor : Vector 3;
  MagnetometerBias : Vector 3;
  MagnetometerScaleFactor : Vector 9
}.

Definition set_AccelerometerBias (v : Vector 3) (s : AHRS_SensorErrorVector) :=
  {| AccelerometerBias := v;
     AccelerometerScaleFactor := AccelerometerScaleFactor s;
     GyroscopeBias := GyroscopeBias s;
     GyroscopeScaleFactor := GyroscopeScaleFactor s;
     MagnetometerBias := MagnetometerBias s;
     MagnetometerScaleFactor := MagnetometerScaleFactor s |}.
Definition set_AccelerometerScaleFactor (v : Vector 3) (s : AHRS_SensorErrorVector) :=
  {| AccelerometerBias := AccelerometerBias s;
     AccelerometerScaleFactor := v;
     GyroscopeBias := GyroscopeBias s;
     GyroscopeScaleFactor := GyroscopeScaleFactor s;
     MagnetometerBias := MagnetometerBias s;
     MagnetometerScaleFactor := MagnetometerScaleFactor s |}.
Definition set_GyroscopeBias (v : Vector 3) (s : AHRS_SensorErrorVector) :=
  {| AccelerometerBias := AccelerometerBias s;
     AccelerometerScaleFactor := AccelerometerScaleFactor s;
     GyroscopeBias := v;
     GyroscopeScaleFactor := GyroscopeScaleFactor s;
     MagnetometerBias := MagnetometerBias s;
     MagnetometerScaleFactor := MagnetometerScaleFactor s |}.
Definition set_GyroscopeScaleFactor (v : Vector 3) (s : AHRS_SensorErrorVector) :=
  {| AccelerometerBias := AccelerometerBias s;
     AccelerometerScaleFactor := AccelerometerScaleFactor s;
     GyroscopeBias := GyroscopeBias s;
     GyroscopeScaleFactor := v;
     MagnetometerBias := MagnetometerBias s;
     MagnetometerScaleFactor := MagnetometerScaleFactor s |}.
Definition set_MagnetometerBias (v : Vector 3) (s : AHRS_SensorErrorVector) :=
  {| AccelerometerBias := AccelerometerBias s;
     AccelerometerScaleFactor := AccelerometerScaleFactor s;
     GyroscopeBias := GyroscopeBias s;
     GyroscopeScaleFactor := GyroscopeScaleFactor s;
     MagnetometerBias := v;
     MagnetometerScaleFactor := MagnetometerScaleFactor s |}.
Definition set_MagnetometerScaleFactor (v : Vector 9) (s : AHRS_SensorErrorVector) :=
  {| AccelerometerBias := AccelerometerBias s;
     AccelerometerScaleFactor := AccelerometerScaleFactor s;
     GyroscopeBias := GyroscopeBias s;
     GyroscopeScaleFactor := GyroscopeScaleFactor s;
     MagnetometerBias := MagnetometerBias s;
     MagnetometerScaleFactor := v |}.

Definition AHRS_StateVector_Zero : AHRS_StateVector :=
  {| Attitude := Quaternion_ 0 0 0 0; AngularVelocity := Zero 3;
     Acceleration := Zero 3 |}.

Definition AHRS_SensorErrorVector_Zero : AHRS_SensorErrorVector :=
  {| AccelerometerBias := Zero 3; AccelerometerScaleFactor := Zero 3;
     GyroscopeBias := Zero 3; GyroscopeScaleFactor := Zero 3;
     MagnetometerBias := Zero 3; MagnetometerScaleFactor := Zero 9 |}.

Definition AHRS_MeasurementVector : Type := DynamicMeasurementVector.

(** ** The static objects of the translation unit *)

Record Globals : Type := {
  process_noise : Matrix 9 9;
  error_process_noise : Matrix 24 24;
  ahrs : Core AHRS_StateVector 9;
  ahrs_errors : Core AHRS_SensorErrorVector 24;
  meas : AHRS_MeasurementVector;
  measurement_covariance : Vector 9
}.

Definition set_process_noise (m : Matrix 9 9) (g : Globals) : Globals :=
  {| process_noise := m; error_process_noise := error_process_noise g;
     ahrs := ahrs g; ahrs_errors := ahrs_errors g; meas := meas g;
     measurement_covariance := measurement_covariance g |}.
Definition set_error_process_noise (m : Matrix 24 24) (g : Globals) : Globals :=
  {| process_noise := process_noise g; error_process_noise := m;
     ahrs := ahrs g; ahrs_errors := ahrs_errors g; meas := meas g;
     measurement_covariance := measurement_covariance g |}.
Definition set_ahrs (c : Core AHRS_StateVector 9) (g : Globals) : Globals :=
  {| process_noise := process_noise g;
     error_process_noise := error_process_noise g;
     ahrs := c; ahrs_errors := ahrs_errors g; meas := meas g;
     measurement_covariance := measurement_covariance g |}.
Definition set_ahrs_errors (c : Core AHRS_SensorErrorVector 24) (g : Globals)
  : Globals :=
  {| process_noise := process_noise g;
     error_process_noise := error_process_noise g;
     ahrs := ahrs g; ahrs_errors := c; meas := meas g;
     measurement_covariance := measurement_covariance g |}.
Definition set_meas (m : AHRS_MeasurementVector) (g : Globals) : Globals :=
  {| process_noise := process_noise g;
     error_process_noise := error_process_noise g;
     ahrs := ahrs g; ahrs_errors := ahrs_errors g; meas := m;
     measurement_covariance := measurement_covariance g |}.
Definition set_measurement_covariance (v : Vector 9) (g : Globals) : Globals :=
  {| process_noise := process_noise g;
     error_process_noise := error_process_noise g;
     ahrs := ahrs g; ahrs_errors := ahrs_errors g; meas := meas g;
     measurement_covariance := v |}.

(** [ahrs.state.set_field<...>(...)] and the like: an update of one member
    of a static object. *)
Definition ahrs_state_set (f : AHRS_StateVector -> AHRS_StateVector)
  (g : Globals) : Globals :=
  set_ahrs (set_state (f (state (ahrs g))) (ahrs g)) g.
Definition ahrs_errors_state_set
  (f : AHRS_SensorErrorVector -> AHRS_SensorErrorVector) (g : Globals)
  : Globals :=
  set_ahrs_errors (set_state (f (state (ahrs_errors g))) (ahrs_errors g)) g.
Definition ahrs_covariance_set (f : Matrix 9 9 -> Matrix 9 9) (g : Globals)
  : Globals :=
  set_ahrs (set_covariance (f (covariance (ahrs g))) (ahrs g)) g.
Definition ahrs_errors_covariance_set (f : Matrix 24 24 -> Matrix 24 24)
  (g : Globals) : Globals :=
  set_ahrs_errors
    (set_covariance (f (covariance (ahrs_errors g))) (ahrs_errors g)) g.

(** The initial value of the static [measurement_covariance] vector, from
    the noise figures of the datasheet. *)
Definition measurement_covariance_initial : Vector 9 :=
  (0.12, (0.12, (0.12, (0.003, (0.003, (0.003, (0.3, (0.3, (0.3, tt))))))))).

(** ** The models *)

(** The two magnetometer models below build an [Eigen::Map] on [.data()] of
    the vector that [get_field] returns by value, and read through the map
    in the next statement, when that vector is no longer alive.  What such
    a read gives is not fixed by the language: [read_dead v] stands for the
    nine scalars read where the dead vector [v] was. *)
Class DeadStorage : Type := { read_dead : Vector 9 -> Vector 9 }.

Module StateVector.

(** AHRS process model.  [output] and [omega_q] are declared without an
    initial value in the source; [uninit] stands for what they hold before
    the assignments. *)
Definition derivative (uninit self : AHRS_StateVector) : AHRS_StateVector :=
  let output := uninit in
  (* Assume constant linear acceleration. *)
  let output := set_Acceleration (Vector3 0 0 0) output in
  (* Calculate change in attitude. *)
  let omega_q := Attitude uninit in
  let omega_q := set_vec omega_q (times_scalar (AngularVelocity self) 0.5) in
  let omega_q := set_w omega_q 0 in
  let output :=
    set_Attitude (qtimes (conjugate omega_q) (Attitude self)) output in
  (* Assume constant angular velocity. *)
  let output := set_AngularVelocity (Vector3 0 0 0) output in
  output.

(** AHRS process noise covariance, scaled by the sample time delta. *)
Definition process_noise_covariance (g : Globals) (dt : real_t) : Matrix 9 9 :=
  mtimes_scalar (process_noise g) dt.

(** AHRS measurement model, the versions with no input argument. *)
Definition expected_measurement_no_input (key : MeasurementKey)
  (state : AHRS_StateVector) : Vector 3 :=
  match key with
  | Accelerometer =>
      plus (Acceleration state)
           (transformVector (Attitude state) (Vector3 0 0 (- G_ACCEL)))
  | Gyroscope => AngularVelocity state
  | Magnetometer => transformVector (Attitude state) (Vector3 1.0 0.0 0.0)
  end.

(** The measurement model that is used in the filter: it takes the state of
    the parameter estimation filter as an input. *)
Definition expected_measurement {dead : DeadStorage} (key : MeasurementKey)
  (state : AHRS_StateVector) (input : AHRS_SensorErrorVector) : Vector 3 :=
  match key with
  | Accelerometer =>
      plus (AccelerometerBias input)
           (cwiseProduct (AccelerometerScaleFactor input)
              (plus (Acceleration state)
                 (transformVector (Attitude state) (Vector3 0 0 (- G_ACCEL)))))
  | Gyroscope =>
      plus (GyroscopeBias input)
           (cwiseProduct (GyroscopeScaleFactor input) (AngularVelocity state))
  | Magnetometer =>
      let mag_scale :=
        Map_Matrix3 (read_dead (MagnetometerScaleFactor input)) in
      plus (MagnetometerBias input)
           (mtimes_vector mag_scale
              (transformVector (Attitude state) (Vector3 1.0 0.0 0.0)))
  end.

End StateVector.

Module SensorErrorVector.

(** Parameter estimation filter process model: the evolution of sensor
    errors is unpredictable, so this does nothing. *)
Definition derivative (self : AHRS_SensorErrorVector) : AHRS_SensorErrorVector :=
  AHRS_SensorErrorVector_Zero.

(** Parameter estimation filter process noise covariance. *)
Definition process_noise_covariance (g : Globals) (dt : real_t)
  : Matrix 24 24 :=
  mtimes_scalar (error_process_noise g) dt.

(** Parameter estimation filter measurement model: the same functions as
    the state measurement model, with their arguments flipped. *)
Definition expected_measurement {dead : DeadStorage} (key : MeasurementKey)
  (state : AHRS_SensorErrorVector) (input : AHRS_StateVector) : Vector 3 :=
  match key with
  | Accelerometer =>
      plus (AccelerometerBias state)
           (cwiseProduct (AccelerometerScaleFactor state)
              (plus (Acceleration input)
                 (transformVector (Attitude input) (Vector3 0 0 (- G_ACCEL)))))
  | Gyroscope =>
      plus (GyroscopeBias state)
           (cwiseProduct (GyroscopeScaleFactor state) (AngularVelocity input))
  | Magnetometer =>
      let mag_scale :=
        Map_Matrix3 (read_dead (MagnetometerScaleFactor state)) in
      plus (MagnetometerBias state)
           (mtimes_vector mag_scale
              (transformVector (Attitude input) (Vector3 1.0 0.0 0.0)))
  end.

End SensorErrorVector.

(** ** The flat interface *)

Infix ",," := comma (at level 60, right associativity).

(** A scalar in a comma initialiser. *)
Definition scalar (a : R) : Vector 1 := (a, tt).

Definition ukf_init (g : Globals) : Globals :=
  (* Initialise state vector and covariance. *)
  let g := ahrs_state_set (set_Attitude (Quaternion_ 1 0 0 0)) g in
  let g := ahrs_state_set (set_AngularVelocity (Vector3 0 0 0)) g in
  let g := ahrs_state_set (set_Acceleration (Vector3 0 0 0)) g in
  let g := ahrs_covariance_set (fun _ => MatrixZero 9 9) g in
  let g := ahrs_covariance_set (fun p => set_diagonal p
    (scalar 1e0 ,, scalar 1e0 ,, scalar 1e0 ,, scalar 1e0 ,, scalar 1e0 ,,
     scalar 1e0 ,, scalar 5e0 ,, scalar 5e0 ,, scalar 5e0)) g in
  (* Set process noise covariance. *)
  let g := set_process_noise (MatrixZero 9 9) g in
  let g := set_process_noise (set_diagonal (process_noise g)
    (scalar_times 7e-5 (Ones 3) ,,
     scalar_times 1e0 (Ones 3) ,,
     scalar_times 2e1 (Ones 3))) g in
  (* Initialise scale factor and bias errors. *)
  let g := ahrs_errors_state_set (set_AccelerometerBias (Vector3 0 0 0)) g in
  let g := ahrs_errors_state_set (set_AccelerometerScaleFactor (Vector3 1 1 1)) g in
  let g := ahrs_errors_state_set (set_GyroscopeBias (Vector3 0 0 0)) g in
  let g := ahrs_errors_state_set (set_GyroscopeScaleFactor (Vector3 1 1 1)) g in
  let g := ahrs_errors_state_set (set_MagnetometerBias (Vector3 0 0 0)) g in
  let init_scale := MatrixZero 3 3 in
  let init_scale := set_diagonal init_scale
    (scalar EARTH_MAG ,, scalar EARTH_MAG ,, scalar EARTH_MAG) in
  let init_scale_map := Map_Vector9 init_scale in
  let g := ahrs_errors_state_set (set_MagnetometerScaleFactor init_scale_map) g in
  (* Initialise scale factor and bias error covariance. *)
  let g := ahrs_errors_covariance_set (fun _ => MatrixZero 24 24) g in
  let g := ahrs_errors_covariance_set (fun p => set_diagonal p
    (scalar 0.49 ,, scalar 0.49 ,, scalar 0.784 ,,
     scalar_times 3.0e-2 (Ones 3) ,,
     scalar_times 0.35 (Ones 3) ,, scalar_times 3.0e-2 (Ones 3) ,,
     scalar_times 1.0e1 (Ones 3) ,,
     scalar_times (5.0e-2 * EARTH_MAG) (Ones 9))) g in
  (* Set scale factor and bias error process noise. *)
  let g := set_error_process_noise (MatrixZero 24 24) g in
  let g := set_error_process_noise (set_diagonal (error_process_noise g)
    (scalar_times 5.2e-5 (Ones 3) ,, Zero 3 ,,
     scalar_times 3.0e-3 (Ones 3) ,, Zero 3 ,,
     scalar_times 1.5e-2 (Ones 3) ,, Zero 9)) g in
  g.

Definition ukf_set_acceleration (x y z : real_t) (g : Globals) : Globals :=
  ahrs_state_set (set_Acceleration (Vector3 x y z)) g.

Definition ukf_set_attitude (w x y z : real_t) (g : Globals) : Globals :=
  ahrs_state_set (set_Attitude (Quaternion_ w x y z)) g.

Definition ukf_set_angular_velocity (x y z : real_t) (g : Globals) : Globals :=
  ahrs_state_set (set_AngularVelocity (Vector3 x y z)) g.

(** [struct ukf_state_t] is declared in [ahrs.h], which is not among the
    sources; its members and their lengths are the ones the accessors
    below index. *)
Record ukf_state_t : Type := {
  attitude : Vector 4;
  angular_velocity : Vector 3;
  acceleration : Vector 3
}.

(** [in->attitude[i] = a] and the like. *)
Definition attitude_assign (i : nat) (a : real_t) (s : ukf_state_t) :=
  {| attitude := coeffRef (attitude s) i a;
     angular_velocity := angular_velocity s;
     acceleration := acceleration s |}.
Definition angular_velocity_assign (i : nat) (a : real_t) (s : ukf_state_t) :=
  {| attitude := attitude s;
     angular_velocity := coeffRef (angular_velocity s) i a;
     acceleration := acceleration s |}.
Definition acceleration_assign (i : nat) (a : real_t) (s : ukf_state_t) :=
  {| attitude := attitude s;
     angular_velocity := angular_velocity s;
     acceleration := coeffRef (acceleration s) i a |}.

(** The struct behind the pointer goes in and comes out. *)
Definition ukf_get_state (in_ : ukf_state_t) (g : Globals)
  : ukf_state_t * Globals :=
  let in_ := acceleration_assign 0 (at_ (Acceleration (state (ahrs g))) 0) in_ in
  let in_ := acceleration_assign 1 (at_ (Acceleration (state (ahrs g))) 1) in_ in
  let in_ := acceleration_assign 2 (at_ (Acceleration (state (ahrs g))) 2) in_ in
  let in_ := attitude_assign 0 (x (Attitude (state (ahrs g)))) in_ in
  let in_ := attitude_assign 1 (y (Attitude (state (ahrs g)))) in_ in
  let in_ := attitude_assign 2 (z (Attitude (state (ahrs g)))) in_ in
  let in_ := attitude_assign 3 (w (Attitude (state (ahrs g)))) in_ in
  let in_ :=
    angular_velocity_assign 0 (at_ (AngularVelocity (state (ahrs g))) 0) in_ in
  let in_ :=
    angular_velocity_assign 1 (at_ (AngularVelocity (state (ahrs g))) 1) in_ in
  let in_ :=
    angular_velocity_assign 2 (at_ (AngularVelocity (state (ahrs g))) 2) in_ in
  (in_, g).

Definition ukf_set_state (in_ : ukf_state_t) (g : Globals) : Globals :=
  let g := ahrs_state_set (set_Acceleration
    (Vector3 (at_ (acceleration in_) 0) (at_ (acceleration in_) 1)
             (at_ (acceleration in_) 2))) g in
  let g := ahrs_state_set (set_Attitude
    (Quaternion_ (at_ (attitude in_) 3) (at_ (attitude in_) 0)
                 (at_ (attitude in_) 1) (at_ (attitude in_) 2))) g in
  let g := ahrs_state_set (set_AngularVelocity
    (Vector3 (at_ (angular_velocity in_) 0) (at_ (angular_velocity in_) 1)
             (at_ (angular_velocity in_) 2))) g in
  g.

(** The nine scalars written through [state_error], and the statics. *)
Definition ukf_get_state_error (g : Globals) : Vector 9 * Globals :=
  let error_map := cwiseSqrt (rowwise_sum (cwiseAbs (covariance (ahrs g)))) in
  (error_map, g).

Definition ukf_sensor_clear (g : Globals) : Globals := set_meas [] g.

Definition ukf_sensor_set_accelerometer (x y z : real_t) (g : Globals) :=
  set_meas (set_field Accelerometer (Vector3 x y z) (meas g)) g.

Definition ukf_sensor_set_gyroscope (x y z : real_t) (g : Globals) :=
  set_meas (set_field Gyroscope (Vector3 x y z) (meas g)) g.

Definition ukf_sensor_set_magnetometer (x y z : real_t) (g : Globals) :=
  set_meas (set_field Magnetometer (Vector3 x y z) (meas g)) g.

(** [struct ukf_sensor_params_t], also of [ahrs.h]. *)
Record ukf_sensor_params_t : Type := {
  accel_covariance : Vector 3;
  gyro_covariance : Vector 3;
  mag_covariance : Vector 3
}.

Definition ukf_set_params (in_ : ukf_sensor_params_t) (g : Globals) : Globals :=
  set_measurement_covariance
    (scalar (at_ (accel_covariance in_) 0) ,,
     scalar (at_ (accel_covariance in_) 1) ,,
     scalar (at_ (accel_covariance in_) 2) ,,
     scalar (at_ (gyro_covariance in_) 0) ,,
     scalar (at_ (gyro_covariance in_) 1) ,,
     scalar (at_ (gyro_covariance in_) 2) ,,
     scalar (at_ (mag_covariance in_) 0) ,,
     scalar (at_ (mag_covariance in_) 1) ,,
     scalar (at_ (mag_covariance in_) 2)) g.

(** [enum ukf_precision_t], also of [ahrs.h]. *)
Inductive ukf_precision_t : Type := UKF_PRECISION_FLOAT | UKF_PRECISION_DOUBLE.

(** [sizeof_real_t] is [sizeof(real_t)], in bytes of eight bits, fixed when
    the library is built. *)
Definition ukf_config_get_precision (sizeof_real_t : nat) (g : Globals)
  : ukf_precision_t * Globals :=
  if Nat.eqb sizeof_real_t 8
  then (UKF_PRECISION_DOUBLE, g)
  else (UKF_PRECISION_FLOAT, g).

(** ** The coupling driver *)

(** The two filter objects. *)
Inductive Object : Type := The_ahrs | The_ahrs_errors.

(** What the driver asks of the filter objects, with the arguments it
    passes.  The record of these calls is kept next to the statics, so that
    the order of the steps of a tick can be read off afterwards. *)
Inductive Call : Type :=
| Call_a_priori_step (self : Object) (dt : real_t)
| Call_innovation_step_ahrs
    (z : AHRS_MeasurementVector) (input : AHRS_SensorErrorVector)
| Call_innovation_step_ahrs_errors
    (z : AHRS_MeasurementVector) (input : AHRS_StateVector)
| Call_innovation_covariance_add_assign (rhs : MatrixX)
| Call_a_posteriori_step (self : Object).

Record World : Type := { globals : Globals; calls : list Call }.

(** A run either stops on a failed assertion or ends with a value in a new
    world. *)
Definition Prog (A : Type) : Type := World -> option (A * World).

Definition ret {A : Type} (a : A) : Prog A := fun w => Some (a, w).

Definition bind {A B : Type} (m : Prog A) (k : A -> Prog B) : Prog B :=
  fun w =>
    match m w with
    | Some (a, w') => k a w'
    | None => None
    end.

Definition read {A : Type} (f : Globals -> A) : Prog A :=
  fun w => Some (f (globals w), w).

Definition update (f : Globals -> Globals) : Prog unit :=
  fun w => Some (tt, {| globals := f (globals w); calls := calls w |}).

Definition record (c : Call) : Prog unit :=
  fun w => Some (tt, {| globals := globals w; calls := calls w ++ [c] |}).

Definition assertion_failed {A : Type} : Prog A := fun _ => None.

Declare Scope prog_scope.
Delimit Scope prog_scope with prog.
Notation "x <- m ;; k" := (bind m (fun x => k))
  (at level 61, m at next level, right associativity) : prog_scope.
Notation "m ;; k" := (bind m (fun _ => k))
  (at level 61, right associativity) : prog_scope.

Section Driver.

(** The two instantiations of the filter template. *)
Context {dead : DeadStorage}.
Context {AHRS_Filter : Steps AHRS_StateVector AHRS_SensorErrorVector 9}.
Context {AHRS_ParameterEstimationFilter :
           Steps AHRS_SensorErrorVector AHRS_StateVector 24}.

Local Open Scope prog_scope.

(** [ahrs.a_priori_step(dt)]: the template reaches the process model of
    [AHRS_StateVector] and, through it, the static [process_noise]. *)
Definition ahrs_a_priori_step (dt : real_t) : Prog unit :=
  record (Call_a_priori_step The_ahrs dt) ;;
  update (fun g =>
    set_ahrs
      (a_priori_step (StateVector.derivative AHRS_StateVector_Zero)
         (StateVector.process_noise_covariance g) dt (ahrs g)) g).

(** [ahrs.innovation_step(z, input)]. *)
Definition ahrs_innovation_step (z : AHRS_MeasurementVector)
  (input : AHRS_SensorErrorVector) : Prog unit :=
  record (Call_innovation_step_ahrs z input) ;;
  update (fun g =>
    set_ahrs
      (innovation_step StateVector.expected_measurement
         (measurement_covariance g) z input (ahrs g)) g).

(** [ahrs.a_posteriori_step()]. *)
Definition ahrs_a_posteriori_step : Prog unit :=
  record (Call_a_posteriori_step The_ahrs) ;;
  update (fun g => set_ahrs (a_posteriori_step (ahrs g)) g).

(** [ahrs_errors.a_priori_step(dt)]. *)
Definition ahrs_errors_a_priori_step (dt : real_t) : Prog unit :=
  record (Call_a_priori_step The_ahrs_errors dt) ;;
  update (fun g =>
    set_ahrs_errors
      (a_priori_step SensorErrorVector.derivative
         (SensorErrorVector.process_noise_covariance g) dt (ahrs_errors g)) g).

(** [ahrs_errors.innovation_step(z, input)]. *)
Definition ahrs_errors_innovation_step (z : AHRS_MeasurementVector)
  (input : AHRS_StateVector) : Prog unit :=
  record (Call_innovation_step_ahrs_errors z input) ;;
  update (fun g =>
    set_ahrs_errors
      (innovation_step SensorErrorVector.expected_measurement
         (measurement_covariance g) z input (ahrs_errors g)) g).

(** [ahrs_errors.innovation_covariance += rhs]. *)
Definition ahrs_errors_innovation_covariance_add_assign (rhs : MatrixX)
  : Prog unit :=
  record (Call_innovation_covariance_add_assign rhs) ;;
  lhs <- read (fun g => innovation_covariance (ahrs_errors g)) ;;
  match add_assign lhs rhs with
  | Some m =>
      update (fun g =>
        set_ahrs_errors (set_innovation_covariance m (ahrs_errors g)) g)
  | None => assertion_failed
  end.

(** [ahrs_errors.a_posteriori_step()]. *)
Definition ahrs_errors_a_posteriori_step : Prog unit :=
  record (Call_a_posteriori_step The_ahrs_errors) ;;
  update (fun g => set_ahrs_errors (a_posteriori_step (ahrs_errors g)) g).

Definition ukf_iterate (dt : real_t) : Prog unit :=
  (* Do a normal iteration for the AHRS filter, with the current state of
     the parameter estimation filter as the measurement input. *)
  ahrs_a_priori_step dt ;;
  (z <- read meas ;;
   input <- read (fun g => state (ahrs_errors g)) ;;
   ahrs_innovation_step z input) ;;
  ahrs_a_posteriori_step ;;
  (* Do the a priori step for the parameter estimation filter. *)
  ahrs_errors_a_priori_step dt ;;
  (* Call the innovation step using the AHRS filter a priori mean as the
     measurement. *)
  (z <- read meas ;;
   input <- read (fun g => state (ahrs g)) ;;
   ahrs_errors_innovation_step z input) ;;
  (* Adjust the innovation covariance of the parameter estimation filter by
     adding the innovation covariance of the AHRS filter. *)
  (rhs <- read (fun g => innovation_covariance (ahrs g)) ;;
   ahrs_errors_innovation_covariance_add_assign rhs) ;;
  (* Do the a posteriori step. *)
  ahrs_errors_a_posteriori_step.

(** The filter objects as a tick leaves them after each of its steps. *)
Definition ahrs_a_priori (dt : real_t) (g : Globals) : Core AHRS_StateVector 9 :=
  a_priori_step (StateVector.derivative AHRS_StateVector_Zero)
    (StateVector.process_noise_covariance g) dt (ahrs g).

Definition ahrs_innovation (dt : real_t) (g : Globals)
  : Core AHRS_StateVector 9 :=
  innovation_step StateVector.expected_measurement (measurement_covariance g)
    (meas g) (state (ahrs_errors g)) (ahrs_a_priori dt g).

Definition ahrs_a_posteriori (dt : real_t) (g : Globals)
  : Core AHRS_StateVector 9 :=
  a_posteriori_step (ahrs_innovation dt g).

Definition ahrs_errors_a_priori (dt : real_t) (g : Globals)
  : Core AHRS_SensorErrorVector 24 :=
  a_priori_step SensorErrorVector.derivative
    (SensorErrorVector.process_noise_covariance g) dt (ahrs_errors g).

(** The parameter filter after its innovation step, given the input [u]
    that step was called with. *)
Definition ahrs_errors_innovation (u : AHRS_StateVector) (dt : real_t)
  (g : Globals) : Core AHRS_SensorErrorVector 24 :=
  innovation_step SensorErrorVector.expected_measurement
    (measurement_covariance g) (meas g) u (ahrs_errors_a_priori dt g).

(** The AHRS filter's a-priori mean of a tick: its state between its
    a-priori step and its a-posteriori step. *)
Definition ahrs_a_priori_mean (dt : real_t) (g : Globals) : AHRS_StateVector :=
  state (ahrs_a_priori dt g).

(** The parameter filter as a tick leaves it after its innovation step: the
    input of that step is the state the AHRS filter has by then. *)
Definition ahrs_errors_before_injection (dt : real_t) (g : Globals)
  : Core AHRS_SensorErrorVector 24 :=
  ahrs_errors_innovation (state (ahrs_a_posteriori dt g)) dt g.

(** Both innovation covariances of a tick have one size, as they do when
    each innovation step sizes its own by the measurement vector. *)
Definition same_size (dt : real_t) (g : Globals) : Prop :=
  shape (innovation_covariance (ahrs_errors_before_injection dt g)) =
  shape (innovation_covariance (ahrs_a_posteriori dt g)).

(** The calls of a whole tick, with [m] the sum of the two innovation
    covariances. *)
Definition tick_calls (dt : real_t) (g : Globals) : list Call :=
  [ Call_a_priori_step The_ahrs dt;
    Call_innovation_step_ahrs (meas g) (state (ahrs_errors g));
    Call_a_posteriori_step The_ahrs;
    Call_a_priori_step The_ahrs_errors dt;
    Call_innovation_step_ahrs_errors (meas g) (state (ahrs_a_posteriori dt g));
    Call_innovation_covariance_add_assign
      (innovation_covariance (ahrs_a_posteriori dt g));
    Call_a_posteriori_step The_ahrs_errors ].

(** The statics at the end of a tick in which the sum of the two innovation
    covariances is [m]. *)
Definition tick_globals (m : MatrixX) (dt : real_t) (g : Globals) : Globals :=
  set_ahrs_errors
    (a_posteriori_step
       (set_innovation_covariance m (ahrs_errors_before_injection dt g)))
    (set_ahrs (ahrs_a_posteriori dt g) g).




(** The inputs the parameter filter's innovation step was called with. *)
Fixpoint parameter_innovation_inputs (l : list Call) : list AHRS_StateVector :=
  match l with
  | [] => []
  | Call_innovation_step_ahrs_errors _ input :: t =>
      input :: parameter_innovation_inputs t
  | _ :: t => parameter_innovation_inputs t
  end.

End Driver.

(** ** Vocabulary of the statements *)

(** The quaternion [(0, v)] and the product of a quaternion by a scalar. *)
Definition pure_quaternion (v : Vector 3) : Quaternion :=
  Quaternion_ 0 (at_ v 0) (at_ v 1) (at_ v 2).

Definition qscale (s : R) (q : Quaternion) : Quaternion :=
  Quaternion_ (s * w q) (s * x q) (s * y q) (s * z q).

Definition squaredNorm (q : Quaternion) : R :=
  x q * x q + y q * y q + z q * z q + w q * w q.


Definition startup : Globals :=
  {| process_noise := MatrixZero 9 9;
     error_process_noise := MatrixZero 24 24;
     ahrs := {| state := AHRS_StateVector_Zero; covariance := MatrixZero 9 9;
                sigma_points := []; residual := [];
                innovation_covariance := []; cross_covariance := [] |};
     ahrs_errors := {| state := AHRS_SensorErrorVector_Zero;
                       covariance := MatrixZero 24 24;
                       sigma_points := []; residual := [];
                       innovation_covariance := []; cross_covariance := [] |};
     meas := [];
     measurement_covariance := measurement_covariance_initial |}.

(** The diagonal of a tick's expected AHRS process noise, initial covariance
    and parameter process noise, by index. *)
Definition process_noise_default (i : nat) : R :=
  if (i <? 3)%nat then 7e-5 else if (i <? 6)%nat then 1.0 else 20.0.

Definition covariance_default (i : nat) : R :=
  if (i <? 6)%nat then 1 else 5.

Definition error_process_noise_default (i : nat) : R :=
  if (i <? 3)%nat then 5.2e-5
  else if (i <? 6)%nat then 0
  else if (i <? 9)%nat then 3.0e-3
  else if (i <? 12)%nat then 0
  else if (i <? 15)%nat then 1.5e-2
  else 0.

Definition measurement_noise_default (i : nat) : R :=
  if (i <? 3)%nat then 0.12 else if (i <? 6)%nat then 0.003 else 0.3.

(** ** A small filter core to run the driver on

    The statements about [ukf_iterate] hold for every implementation of the
    three steps.  To run a tick on concrete numbers one implementation is
    needed; this one keeps of the filter only what the driver can observe.
    Its a-priori step leaves the object alone.  Its innovation step stores the
    residual between each enabled field and its expected value at the mean,
    and the measurement variances of the enabled fields as the innovation
    covariance.  Its a-posteriori step moves the mean by the residual,
    through a function given for the state vector type. *)

Module Small.

Definition to_list3 (v : Vector 3) : list R := [at_ v 0; at_ v 1; at_ v 2].

Definition minus3 (a b : Vector 3) : Vector 3 :=
  Vector3 (at_ a 0 - at_ b 0) (at_ a 1 - at_ b 1) (at_ a 2 - at_ b 2).

(** Where the variances of a field start in the covariance vector. *)
Definition offset (k : MeasurementKey) : nat :=
  match k with Accelerometer => 0 | Gyroscope => 3 | Magnetometer => 6 end.

Definition variances (r : Vector 9) (z : DynamicMeasurementVector) : list R :=
  flat_map (fun kv => [at_ r (offset (fst kv)); at_ r (offset (fst kv) + 1);
                       at_ r (offset (fst kv) + 2)]) z.

(** The square matrix with [d] on the diagonal and zeroes elsewhere. *)
Definition asDiagonal (d : list R) : MatrixX :=
  map (fun i => map (fun j => if Nat.eqb i j then nth i d 0 else 0)
                    (seq 0 (length d)))
      (seq 0 (length d)).

Definition innovation {S I : Type} {L : nat}
  (h : MeasurementKey -> S -> I -> Vector 3) (r : Vector 9)
  (z : DynamicMeasurementVector) (u : I) (c : Core S L) : Core S L :=
  {| state := state c; covariance := covariance c;
     sigma_points := sigma_points c;
     residual :=
       flat_map (fun kv => to_list3 (minus3 (snd kv) (h (fst kv) (state c) u))) z;
     innovation_covariance := asDiagonal (variances r z);
     cross_covariance := cross_covariance c |}.

Definition steps {S I : Type} {L : nat} (move : S -> list R -> S) : Steps S I L :=
  {| a_priori_step := fun _ _ _ c => c;
     innovation_step := innovation;
     a_posteriori_step := fun c => set_state (move (state c) (residual c)) c |}.

(** The AHRS mean moves in angular velocity, by the first three entries of
    the residual. *)
Definition move_angular_velocity (s : AHRS_StateVector) (y : list R)
  : AHRS_StateVector :=
  set_AngularVelocity
    (plus (AngularVelocity s) (Vector3 (nth 0 y 0) (nth 1 y 0) (nth 2 y 0))) s.

Definition AHRS_Filter : Steps AHRS_StateVector AHRS_SensorErrorVector 9 :=
  steps move_angular_velocity.

(** The parameter mean stays. *)
Definition AHRS_ParameterEstimationFilter
  : Steps AHRS_SensorErrorVector AHRS_StateVector 24 :=
  steps (fun s _ => s).

(** [ukf_init(); ukf_sensor_clear(); ukf_sensor_set_gyroscope(1, 0, 0)]. *)
Definition gyroscope_sample : Globals :=
  ukf_sensor_set_gyroscope 1 0 0 (ukf_sensor_clear (ukf_init startup)).

(** Storage that still holds, when it is read dead, what it held alive. *)
Definition intact : DeadStorage := {| read_dead := fun v => v |}.

(** Storage that reads as zeroes once it is dead. *)
Definition wiped : DeadStorage := {| read_dead := fun _ => Zero 9 |}.

(** The world before the tick, with nothing recorded. *)
Definition before_tick : World :=
  {| globals := gyroscope_sample; calls := [] |}.

(** Variances that replace the initial ones. *)
Definition replaced_params : ukf_sensor_params_t :=
  {| accel_covariance := Vector3 1 1 1; gyro_covariance := Vector3 1 1 1;
     mag_covariance := Vector3 1 1 1 |}.

End Small.

(** ** The process noise in double precision

    Where a statement depends on rounding, [real_t] is read as [double],
    IEEE binary64, and the product of the source is the rounded one. *)

Module Double.

Definition real_t : Type := PrimFloat.float.

(** The double nearest to the ratio of two integers. *)
Definition of_ratio (n d : Z) : real_t :=
  PrimFloat.div (PrimFloat.of_uint63 (Uint63.of_Z n))
                (PrimFloat.of_uint63 (Uint63.of_Z d)).

Definition CovarianceMatrix (n : nat) : Type := Vec (Vec real_t n) n.

(** [m * s] and [s * m], one rounded product per entry. *)
Definition mtimes_scalar {n : nat} (m : CovarianceMatrix n) (s : real_t)
  : CovarianceMatrix n :=
  vmap (n := n) (fun row : Vec real_t n => vmap (fun x => PrimFloat.mul x s) row) m.
Definition scalar_mtimes {n : nat} (s : real_t) (m : CovarianceMatrix n)
  : CovarianceMatrix n :=
  vmap (n := n) (fun row : Vec real_t n => vmap (fun x => PrimFloat.mul s x) row) m.

(** [return process_noise * dt;] and [return error_process_noise * dt;]. *)
Definition process_noise_covariance (process_noise : CovarianceMatrix 9)
  (dt : real_t) : CovarianceMatrix 9 :=
  mtimes_scalar process_noise dt.
Definition error_process_noise_covariance
  (error_process_noise : CovarianceMatrix 24) (dt : real_t)
  : CovarianceMatrix 24 :=
  mtimes_scalar error_process_noise dt.

Definition zero : real_t := of_ratio 0 1.

Definition entry {n : nat} (m : CovarianceMatrix n) (i j : nat) : real_t :=
  coeff zero (coeff (tabulate n (fun _ => zero)) (n := n) m i) j.

(** The process noise [ukf_init] sets: 7e-5, 1 and 20 on the diagonal. *)
Definition process_noise_of_ukf_init : CovarianceMatrix 9 :=
  tabulate 9 (fun i => tabulate 9 (fun j =>
    if Nat.eqb i j
    then PrimFloat.mul
           (if (i <? 3)%nat then of_ratio 7 100000
            else if (i <? 6)%nat then of_ratio 1 1 else of_ratio 20 1)
           (of_ratio 1 1)
    else zero)).

End Double.

(** ** The accessors of the covariance and of the process noise *)

(** [Eigen::Map<CovarianceMatrix>(data) = m] for the 9x9 covariance: the 81
    scalars go to contiguous storage column after column, so that
    [data[i + 9 * j] = m(i, j)]. *)
Definition Map_assign_Matrix9 (m : Matrix 9 9) : Vector 81 :=
  tabulate 81 (fun k => mcoeff m (k mod 9) (k / 9)).

(** The 81 scalars written through [state_covariance], and the statics. *)
Definition ukf_get_state_covariance (g : Globals) : Vector 81 * Globals :=
  let covariance_map := Map_assign_Matrix9 (covariance (ahrs g)) in
  (covariance_map, g).

(** The nine scalars written through [state_covariance_diagonal]. *)
Definition ukf_get_state_covariance_diagonal (g : Globals)
  : Vector 9 * Globals :=
  let covariance_map := diagonal (covariance (ahrs g)) in
  (covariance_map, g).

(** [process_noise_covariance] is the array of nine scalars behind the
    pointer. *)
Definition ukf_set_process_noise (process_noise_covariance : Vector 9)
  (g : Globals) : Globals :=
  let covariance_map := process_noise_covariance in
  let g := set_process_noise (MatrixZero 9 9) g in
  let g := set_process_noise (set_diagonal (process_noise g) covariance_map) g in
  g.



(** The parameters that leave a measurement as the plain model gives it:
    no bias, unit scale factors, the identity as magnetometer matrix. *)
Definition neutral_parameters : AHRS_SensorErrorVector :=
  {| AccelerometerBias := Vector3 0 0 0;
     AccelerometerScaleFactor := Vector3 1 1 1;
     GyroscopeBias := Vector3 0 0 0;
     GyroscopeScaleFactor := Vector3 1 1 1;
     MagnetometerBias := Vector3 0 0 0;
     MagnetometerScaleFactor := (1, (0, (0, (0, (1, (0, (0, (0, (1, tt))))))))) |}.

(** The diagonal [ukf_init] gives the covariance of the parameter filter. *)
Definition error_covariance_default (i : nat) : R :=
  if (i <? 2)%nat then 0.49
  else if (i <? 3)%nat then 0.784
  else if (i <? 6)%nat then 3.0e-2
  else if (i <? 9)%nat then 0.35
  else if (i <? 12)%nat then 3.0e-2
  else if (i <? 15)%nat then 1.0e1
  else 2.25.

(** A covariance with nothing off the diagonal, within the 9x9 range. *)
Definition is_diagonal (m : Matrix 9 9) : Prop :=
  forall i j, (i < 9)%nat -> (j < 9)%nat -> i <> j -> mcoeff m i j = 0.

(** A parameter filter core whose steps leave the object alone: its
    innovation covariance keeps the size it had. *)
Definition Idle : Steps AHRS_SensorErrorVector AHRS_StateVector 24 :=
  {| a_priori_step := fun _ _ _ c => c;
     innovation_step := fun _ _ _ _ c => c;
     a_posteriori_step := fun c => c |}.

(** * Properties *)

(** ** Fixed-size vectors *)

Lemma coeff_tabulate_from {A : Type} (d : A) (f : nat -> A) (n k i : nat) :
  (i < n)%nat -> coeff d (tabulate_from f k n) i = f (k + i)%nat.
Proof.
  revert k i; induction n as [|n IH]; intros k i Hi; [lia|].
  destruct i as [|i]; simpl.
  - now rewrite Nat.add_0_r.
  - rewrite IH by lia. f_equal; lia.
Qed.

Lemma coeff_tabulate {A : Type} (d : A) (f : nat -> A) (n i : nat) :
  (i < n)%nat -> coeff d (tabulate n f) i = f i.
Proof. intros Hi; unfold tabulate; now rewrite coeff_tabulate_from. Qed.

Lemma coeff_out_of_range {A : Type} (d : A) (n : nat) (v : Vec A n) (i : nat) :
  (n <= i)%nat -> coeff d v i = d.
Proof.
  revert v i; induction n as [|n IH]; intros v i Hi; [reflexivity|].
  destruct i as [|i]; [lia|]. simpl. apply IH; lia.
Qed.

Lemma coeff_vmap {A B : Type} (f : A -> B) (d : A) (e : B) (n : nat)
  (v : Vec A n) (i : nat) :
  (i < n)%nat -> coeff e (vmap f v) i = f (coeff d v i).
Proof.
  revert v i; induction n as [|n IH]; intros v i Hi; [lia|].
  destruct i as [|i]; simpl; [reflexivity|]. apply IH; lia.
Qed.

Lemma at_Constant (n : nat) (a : R) (i : nat) :
  (i < n)%nat -> at_ (Constant n a) i = a.
Proof. intros Hi; unfold at_, Constant; now rewrite coeff_tabulate. Qed.

Lemma at_Zero (n i : nat) : at_ (Zero n) i = 0.
Proof.
  destruct (Nat.lt_ge_cases i n) as [Hi|Hi].
  - now apply at_Constant.
  - unfold at_; now rewrite coeff_out_of_range.
Qed.

Lemma at_times_scalar (n : nat) (v : Vector n) (s : R) (i : nat) :
  at_ (times_scalar v s) i = at_ v i * s.
Proof.
  destruct (Nat.lt_ge_cases i n) as [Hi|Hi]; unfold at_, times_scalar.
  - now rewrite (coeff_vmap _ 0).
  - rewrite !coeff_out_of_range by assumption. ring.
Qed.

Lemma mcoeff_mtimes_scalar (r c : nat) (m : Matrix r c) (s : R) (i j : nat) :
  mcoeff (mtimes_scalar m s) i j = mcoeff m i j * s.
Proof.
  unfold mcoeff, mtimes_scalar.
  destruct (Nat.lt_ge_cases i r) as [Hi|Hi].
  - rewrite (coeff_vmap _ (Zero c)) by assumption. apply at_times_scalar.
  - rewrite !coeff_out_of_range by assumption. rewrite at_Zero. ring.
Qed.

Lemma vmap_vmap {A B C : Type} (f : A -> B) (g : B -> C) (n : nat) (v : Vec A n) :
  vmap g (vmap f v) = vmap (fun a => g (f a)) v.
Proof.
  induction n as [|n IH]; simpl; [reflexivity|]. now rewrite IH.
Qed.

Lemma vmap_ext {A B : Type} (f g : A -> B) (n : nat) (v : Vec A n) :
  (forall a, f a = g a) -> vmap f v = vmap g v.
Proof.
  intros E; induction n as [|n IH]; simpl; [reflexivity|].
  now rewrite E, IH.
Qed.

Lemma mtimes_scalar_mult (r c : nat) (m : Matrix r c) (s t : R) :
  mtimes_scalar m (s * t) = scalar_mtimes s (mtimes_scalar m t).
Proof.
  unfold mtimes_scalar, scalar_mtimes. rewrite vmap_vmap.
  apply vmap_ext; intros row.
  unfold times_scalar, scalar_times. rewrite vmap_vmap.
  apply vmap_ext; intros a. ring.
Qed.

Lemma mcoeff_set_diagonal (n : nat) (m : Matrix n n) (d : Vector n) (i j : nat) :
  (i < n)%nat -> (j < n)%nat ->
  mcoeff (set_diagonal m d) i j = if Nat.eqb i j then at_ d i else mcoeff m i j.
Proof.
  intros Hi Hj. unfold set_diagonal.
  unfold mcoeff at 1. rewrite coeff_tabulate by assumption.
  unfold at_ at 1. now rewrite coeff_tabulate.
Qed.

Lemma mcoeff_MatrixZero (r c i j : nat) : mcoeff (MatrixZero r c) i j = 0.
Proof.
  unfold mcoeff, MatrixZero.
  destruct (Nat.lt_ge_cases i r) as [Hi|Hi].
  - rewrite coeff_tabulate by assumption. apply at_Zero.
  - rewrite coeff_out_of_range by assumption. apply at_Zero.
Qed.

(** The sum of the coefficients, as a sum over the indices. *)
Lemma sum_sum_f_R0 (n : nat) (v : Vector (S n)) :
  sum v = sum_f_R0 (fun j => at_ v j) n.
Proof.
  induction n as [|n IH].
  - destruct v as [a []]. simpl. unfold at_; simpl. ring.
  - destruct v as [a v']. rewrite decomp_sum by lia.
    change (sum (n := S (S n)) (a, v')) with (a + sum v').
    rewrite (IH v'). reflexivity.
Qed.

Lemma Vector3_eta (v : Vector 3) : Vector3 (at_ v 0) (at_ v 1) (at_ v 2) = v.
Proof. destruct v as [a [b [c []]]]. reflexivity. Qed.

(** ** The quaternion algebra the process model relies on *)

Lemma Quaternion_eq (p q : Quaternion) :
  x p = x q -> y p = y q -> z p = z q -> w p = w q -> p = q.
Proof. destruct p, q; simpl; intros; subst; reflexivity. Qed.

Lemma conjugate_qscale (s : R) (q : Quaternion) :
  conjugate (qscale s q) = qscale s (conjugate q).
Proof. apply Quaternion_eq; simpl; ring. Qed.

Lemma qtimes_qscale_l (s : R) (p q : Quaternion) :
  qtimes (qscale s p) q = qscale s (qtimes p q).
Proof. apply Quaternion_eq; simpl; ring. Qed.

Lemma squaredNorm_qtimes (p q : Quaternion) :
  squaredNorm (qtimes p q) = squaredNorm p * squaredNorm q.
Proof. unfold squaredNorm; simpl; ring. Qed.


(** Unfolds the operations on small vectors down to their coefficients,
    leaving the arithmetic of the reals alone. *)
Ltac coefficients :=
  cbv [at_ coeff coeffRef vmap vmap2 plus cwiseProduct times_scalar
       scalar_times dot sum mtimes_vector Map_Matrix3 tabulate tabulate_from
       Vector3 cross vec set_vec set_w conjugate qtimes qscale pure_quaternion
       Quaternion_ transformVector x y z w fst snd Nat.add Nat.mul].

(** ** The process model *)

(** C3.  For every state, the derivative of the AHRS process model has as
    attitude the product [conjugate omega_q * q], where the vector part of
    [omega_q] is the angular velocity times 0.5, its scalar part is 0 and
    [q] is the attitude of the state; this is half of
    [conjugate (0, omega) * q].  Its angular velocity and its acceleration
    are the zero vector.  What the uninitialised locals held does not
    matter. *)
Theorem derivative_attitude_rate (uninit self : AHRS_StateVector) :
  let omega := AngularVelocity self in
  let omega_q :=
    Quaternion_ 0 (at_ omega 0 * 0.5) (at_ omega 1 * 0.5) (at_ omega 2 * 0.5) in
  let output := StateVector.derivative uninit self in
  vec omega_q = times_scalar omega 0.5 /\
  w omega_q = 0 /\
  Attitude output = qtimes (conjugate omega_q) (Attitude self) /\
  Attitude output =
    qscale 0.5 (qtimes (conjugate (pure_quaternion omega)) (Attitude self)) /\
  AngularVelocity output = Vector3 0 0 0 /\
  Acceleration output = Vector3 0 0 0.
Proof.
  destruct self as [q [o0 [o1 [o2 []]]] a]; simpl.
  repeat split.
  apply Quaternion_eq; coefficients; lra.
Qed.

(** ** The measurement model *)

(** C4, what the code does.  With the parameter-filter state as input, the
    expected accelerometer measurement is, axis by axis, the accelerometer
    bias plus the scale factor times the sum of the acceleration and of
    [(0, 0, -9.80665)] rotated by the attitude, and the expected gyroscope
    measurement is the gyroscope bias plus the scale factor times the
    angular velocity.  The expected magnetometer measurement is the
    magnetometer bias plus a 3x3 matrix times [(1, 0, 0)] rotated by the
    attitude, but the matrix is made, column by column, of the nine scalars
    read where the vector of scale parameters was before it died: it is the
    matrix of the parameters only when that storage still holds them.  The
    model of the parameter filter is the same function with its arguments
    flipped. *)
Theorem expected_measurement_with_parameters (dead : DeadStorage)
  (state : AHRS_StateVector) (input : AHRS_SensorErrorVector) :
  let down := transformVector (Attitude state) (Vector3 0 0 (- (9.80665))) in
  let north := transformVector (Attitude state) (Vector3 1 0 0) in
  let a := Acceleration state in
  let o := AngularVelocity state in
  let ab := AccelerometerBias input in
  let af := AccelerometerScaleFactor input in
  let gb := GyroscopeBias input in
  let gf := GyroscopeScaleFactor input in
  let mb := MagnetometerBias input in
  let m := MagnetometerScaleFactor input in
  let r := read_dead m in
  StateVector.expected_measurement Accelerometer state input =
    Vector3 (at_ ab 0 + at_ af 0 * (at_ a 0 + at_ down 0))
            (at_ ab 1 + at_ af 1 * (at_ a 1 + at_ down 1))
            (at_ ab 2 + at_ af 2 * (at_ a 2 + at_ down 2)) /\
  StateVector.expected_measurement Gyroscope state input =
    Vector3 (at_ gb 0 + at_ gf 0 * at_ o 0)
            (at_ gb 1 + at_ gf 1 * at_ o 1)
            (at_ gb 2 + at_ gf 2 * at_ o 2) /\
  StateVector.expected_measurement Magnetometer state input =
    Vector3
      (at_ mb 0 + (at_ r 0 * at_ north 0 + at_ r 3 * at_ north 1 + at_ r 6 * at_ north 2))
      (at_ mb 1 + (at_ r 1 * at_ north 0 + at_ r 4 * at_ north 1 + at_ r 7 * at_ north 2))
      (at_ mb 2 + (at_ r 2 * at_ north 0 + at_ r 5 * at_ north 1 + at_ r 8 * at_ north 2)) /\
  (r = m ->
   StateVector.expected_measurement Magnetometer state input =
     plus mb (mtimes_vector (Map_Matrix3 m) north)) /\
  forall key,
    SensorErrorVector.expected_measurement key input state =
    StateVector.expected_measurement key state input.
Proof.
  cbv zeta.
  assert (E : Vector3 1.0 0.0 0.0 = Vector3 1 0 0)
    by (unfold Vector3; f_equal; [lra|]; f_equal; [lra|]; f_equal; lra).
  split; [|split; [|split; [|split]]].
  - unfold StateVector.expected_measurement, G_ACCEL.
    generalize (transformVector (Attitude state) (Vector3 0 0 (- (9.80665)))).
    intros [d0 [d1 [d2 []]]].
    destruct state as [q o [a0 [a1 [a2 []]]]].
    destruct input as [[b0 [b1 [b2 []]]] [f0 [f1 [f2 []]]] gb gf mb m].
    reflexivity.
  - destruct state as [q [o0 [o1 [o2 []]]] a].
    destruct input as [ab af [b0 [b1 [b2 []]]] [f0 [f1 [f2 []]]] mb m].
    reflexivity.
  - unfold StateVector.expected_measurement. rewrite E.
    generalize (transformVector (Attitude state) (Vector3 1 0 0)).
    intros [n0 [n1 [n2 []]]].
    generalize (read_dead (MagnetometerScaleFactor input)); intros m.
    destruct input as [ab af gb gf [b0 [b1 [b2 []]]] m'].
    do 9 (destruct m as [? m]).
    cbv [MagnetometerBias]. coefficients.
    f_equal; [lra|]. f_equal; [lra|]. f_equal; lra.
  - intros R. unfold StateVector.expected_measurement. now rewrite E, R.
  - intros []; reflexivity.
Qed.

(** C4 fails for the magnetometer once the dead storage holds something
    else.  With the state and the parameters of [ukf_init], the claim's
    value is (45, 0, 0); read through storage that holds zeroes, the model
    gives (0, 0, 0). *)
Lemma expected_measurement_magnetometer_dead :
  let g := ukf_init startup in
  @StateVector.expected_measurement Small.wiped Magnetometer
    (state (ahrs g)) (state (ahrs_errors g)) = Vector3 0 0 0 /\
  plus (MagnetometerBias (state (ahrs_errors g)))
    (mtimes_vector (Map_Matrix3 (MagnetometerScaleFactor (state (ahrs_errors g))))
       (transformVector (Attitude (state (ahrs g))) (Vector3 1 0 0)))
    = Vector3 45 0 0.
Proof.
  cbv zeta. split.
  - lazy - [Rplus Rminus Rmult Ropp Rdiv Rinv IZR].
    f_equal; [lra|]. f_equal; [lra|]. f_equal; lra.
  - lazy - [Rplus Rminus Rmult Ropp Rdiv Rinv IZR].
    f_equal; [lra|]. f_equal; [lra|]. f_equal; lra.
Qed.

(** ** Process noise *)

Lemma Double_entry_mtimes_scalar (n : nat) (m : Double.CovarianceMatrix n)
  (s : Double.real_t) (i j : nat) :
  (i < n)%nat -> (j < n)%nat ->
  Double.entry (Double.mtimes_scalar m s) i j =
  PrimFloat.mul (Double.entry m i j) s.
Proof.
  intros Hi Hj. unfold Double.entry, Double.mtimes_scalar.
  rewrite (coeff_vmap _ (tabulate n (fun _ => Double.zero))) by assumption.
  now rewrite (coeff_vmap _ Double.zero) by assumption.
Qed.

(** C5, amended.  For every time delta the process noise covariance of the
    AHRS filter is the stored [process_noise] times [dt], and that of the
    parameter estimation filter is the stored [error_process_noise] times
    [dt], entry by entry, with one product per entry: in exact arithmetic,
    and with the rounded product in double precision.  In exact arithmetic
    both are linear in [dt]: at [c * dt] they are [c] times what they are
    at [dt]. *)
Theorem process_noise_covariance_linear (g : Globals) (dt : real_t) :
  (forall i j,
     mcoeff (StateVector.process_noise_covariance g dt) i j =
     mcoeff (process_noise g) i j * dt) /\
  (forall i j,
     mcoeff (SensorErrorVector.process_noise_covariance g dt) i j =
     mcoeff (error_process_noise g) i j * dt) /\
  (forall c,
     StateVector.process_noise_covariance g (c * dt) =
     scalar_mtimes c (StateVector.process_noise_covariance g dt)) /\
  (forall c,
     SensorErrorVector.process_noise_covariance g (c * dt) =
     scalar_mtimes c (SensorErrorVector.process_noise_covariance g dt)) /\
  (forall (p : Double.CovarianceMatrix 9) (t : Double.real_t) i j,
     (i < 9)%nat -> (j < 9)%nat ->
     Double.entry (Double.process_noise_covariance p t) i j =
     PrimFloat.mul (Double.entry p i j) t) /\
  (forall (p : Double.CovarianceMatrix 24) (t : Double.real_t) i j,
     (i < 24)%nat -> (j < 24)%nat ->
     Double.entry (Double.error_process_noise_covariance p t) i j =
     PrimFloat.mul (Double.entry p i j) t).
Proof.
  unfold StateVector.process_noise_covariance,
    SensorErrorVector.process_noise_covariance.
  repeat split; intros.
  - apply mcoeff_mtimes_scalar.
  - apply mcoeff_mtimes_scalar.
  - apply mtimes_scalar_mult.
  - apply mtimes_scalar_mult.
  - now apply Double_entry_mtimes_scalar.
  - now apply Double_entry_mtimes_scalar.
Qed.

(** C5 as it is written fails in double precision: with the process noise
    of [ukf_init], [c = 3] and [dt = 0.1], the covariance at [c * dt] is not
    [c] times the covariance at [dt]; the attitude entries differ in the
    last place. *)
Lemma process_noise_covariance_not_linear_in_double :
  let p := Double.process_noise_of_ukf_init in
  let c := Double.of_ratio 3 1 in
  let dt := Double.of_ratio 1 10 in
  Double.process_noise_covariance p (PrimFloat.mul c dt) <>
  Double.scalar_mtimes c (Double.process_noise_covariance p dt).
Proof.
  cbv zeta. intros H.
  apply (f_equal (fun m => PrimFloat.eqb (Double.entry m 0 0)
    (Double.entry
       (Double.scalar_mtimes (Double.of_ratio 3 1)
          (Double.process_noise_covariance Double.process_noise_of_ukf_init
             (Double.of_ratio 1 10))) 0 0))) in H.
  vm_compute in H. discriminate.
Qed.

(** ** The accessors *)

(** C7.  For every covariance matrix the AHRS filter holds and every
    tangent index [i], [ukf_get_state_error] writes at [i] the square root
    of the sum of the absolute values of the entries of row [i], and leaves
    the statics, the covariance among them, as they were. *)
Theorem ukf_get_state_error_row (g : Globals) (i : nat) :
  (i < 9)%nat ->
  at_ (fst (ukf_get_state_error g)) i =
    sqrt (sum_f_R0 (fun j => Rabs (mcoeff (covariance (ahrs g)) i j)) 8) /\
  snd (ukf_get_state_error g) = g.
Proof.
  intros Hi. split; [|reflexivity].
  unfold ukf_get_state_error, fst, cwiseSqrt, rowwise_sum, cwiseAbs, at_.
  rewrite (coeff_vmap _ 0) by assumption.
  rewrite (coeff_vmap _ (Zero 9)) by assumption.
  rewrite (coeff_vmap _ (Zero 9)) by assumption.
  f_equal. rewrite sum_sum_f_R0.
  apply sum_eq; intros j Hj.
  unfold mcoeff, at_. now rewrite (coeff_vmap _ 0) by lia.
Qed.

(** The error envelope after [ukf_init], at an acceleration axis. *)
Lemma ukf_get_state_error_row_witness :
  (6 < 9)%nat /\
  at_ (fst (ukf_get_state_error (ukf_init startup))) 6 =
    sqrt (sum_f_R0
            (fun j => Rabs (mcoeff (covariance (ahrs (ukf_init startup))) 6 j)) 8) /\
  snd (ukf_get_state_error (ukf_init startup)) = ukf_init startup.
Proof.
  split; [lia|]. apply (ukf_get_state_error_row (ukf_init startup) 6). lia.
Defined.

(** C8.  [ukf_config_get_precision] answers [UKF_PRECISION_DOUBLE] when
    [real_t] is eight bytes, 64 bits, wide and [UKF_PRECISION_FLOAT] when
    it is four bytes, 32 bits, wide; the answer is the same whatever the
    statics hold, and they are left as they were. *)
Theorem ukf_config_get_precision_width (g g' : Globals) :
  fst (ukf_config_get_precision 8 g) = UKF_PRECISION_DOUBLE /\
  fst (ukf_config_get_precision 4 g) = UKF_PRECISION_FLOAT /\
  (forall sizeof_real_t,
     fst (ukf_config_get_precision sizeof_real_t g) =
     fst (ukf_config_get_precision sizeof_real_t g')) /\
  (forall sizeof_real_t, snd (ukf_config_get_precision sizeof_real_t g) = g).
Proof.
  repeat split; intros sz; unfold ukf_config_get_precision;
    destruct (Nat.eqb sz 8); reflexivity.
Qed.

(** C10.  Reading the state into a [ukf_state_t] with [ukf_get_state] and
    writing that struct back with [ukf_set_state] leaves every static as it
    was.  The attitude array of the struct holds the quaternion as x, y, z,
    w, scalar last, while [ukf_set_attitude] takes w, x, y, z. *)
Theorem ukf_get_state_set_state (in_ : ukf_state_t) (g : Globals) :
  let q := Attitude (state (ahrs g)) in
  snd (ukf_get_state in_ g) = g /\
  ukf_set_state (fst (ukf_get_state in_ g)) (snd (ukf_get_state in_ g)) = g /\
  attitude (fst (ukf_get_state in_ g)) = (x q, (y q, (z q, (w q, tt)))) /\
  forall w0 x0 y0 z0,
    Attitude (state (ahrs (ukf_set_attitude w0 x0 y0 z0 g))) =
      {| x := x0; y := y0; z := z0; w := w0 |} /\
    attitude (fst (ukf_get_state in_ (ukf_set_attitude w0 x0 y0 z0 g))) =
      (x0, (y0, (z0, (w0, tt)))).
Proof.
  destruct g as [pn epn [[[qx qy qz qw] [o0 [o1 [o2 []]]] [a0 [a1 [a2 []]]]]
                          p sp r ic cc] e m mc].
  destruct in_ as [[t0 [t1 [t2 [t3 []]]]] [u0 [u1 [u2 []]]] [v0 [v1 [v2 []]]]].
  repeat split.
Qed.

(** ** The tuning *)

Ltac diagonal_entry :=
  cbv [at_ coeff comma scalar scalar_times Ones Zero Constant tabulate
       tabulate_from vmap fst snd process_noise_default covariance_default
       error_process_noise_default measurement_noise_default
       measurement_covariance_initial Nat.ltb Nat.leb];
  lra.

Lemma process_noise_ukf_init (g : Globals) :
  process_noise (ukf_init g) =
  set_diagonal (MatrixZero 9 9)
    (scalar_times 7e-5 (Ones 3) ,, scalar_times 1e0 (Ones 3) ,,
     scalar_times 2e1 (Ones 3)).
Proof. reflexivity. Qed.

Lemma covariance_ukf_init (g : Globals) :
  covariance (ahrs (ukf_init g)) =
  set_diagonal (MatrixZero 9 9)
    (scalar 1e0 ,, scalar 1e0 ,, scalar 1e0 ,, scalar 1e0 ,, scalar 1e0 ,,
     scalar 1e0 ,, scalar 5e0 ,, scalar 5e0 ,, scalar 5e0).
Proof. reflexivity. Qed.

Lemma error_process_noise_ukf_init (g : Globals) :
  error_process_noise (ukf_init g) =
  set_diagonal (MatrixZero 24 24)
    (scalar_times 5.2e-5 (Ones 3) ,, Zero 3 ,,
     scalar_times 3.0e-3 (Ones 3) ,, Zero 3 ,,
     scalar_times 1.5e-2 (Ones 3) ,, Zero 9).
Proof. reflexivity. Qed.

Lemma process_noise_diagonal (i : nat) :
  (i < 9)%nat ->
  at_ (n := 9) (scalar_times 7e-5 (Ones 3) ,, scalar_times 1e0 (Ones 3) ,,
       scalar_times 2e1 (Ones 3)) i = process_noise_default i.
Proof.
  intros Hi. do 9 (destruct i as [|i]; [diagonal_entry|]). lia.
Qed.

Lemma covariance_diagonal (i : nat) :
  (i < 9)%nat ->
  at_ (n := 9)
    (scalar 1e0 ,, scalar 1e0 ,, scalar 1e0 ,, scalar 1e0 ,, scalar 1e0 ,,
     scalar 1e0 ,, scalar 5e0 ,, scalar 5e0 ,, scalar 5e0) i =
  covariance_default i.
Proof.
  intros Hi. do 9 (destruct i as [|i]; [diagonal_entry|]). lia.
Qed.

Lemma error_process_noise_diagonal (i : nat) :
  (i < 24)%nat ->
  at_ (n := 24)
    (scalar_times 5.2e-5 (Ones 3) ,, Zero 3 ,,
     scalar_times 3.0e-3 (Ones 3) ,, Zero 3 ,,
     scalar_times 1.5e-2 (Ones 3) ,, Zero 9) i =
  error_process_noise_default i.
Proof.
  intros Hi. do 24 (destruct i as [|i]; [diagonal_entry|]). lia.
Qed.

Lemma measurement_covariance_initial_diagonal (i : nat) :
  (i < 9)%nat ->
  at_ measurement_covariance_initial i = measurement_noise_default i.
Proof.
  intros Hi. do 9 (destruct i as [|i]; [diagonal_entry|]). lia.
Qed.

(** C9, amended.  After [ukf_init] the AHRS process noise is diagonal, with
    7e-5 on the three attitude axes, 1.0 on the angular velocity axes and
    20.0 on the acceleration axes; the AHRS covariance is diagonal, (1, 1,
    1, 1, 1, 1, 5, 5, 5); the parameter process noise is diagonal, with
    5.2e-5, 0, 3.0e-3, 0, 1.5e-2 on the three axes of accelerometer bias,
    accelerometer scale, gyroscope bias, gyroscope scale and magnetometer
    bias, and 0 on the nine magnetometer scale entries.  The measurement
    variances are not set by [ukf_init], which leaves them as it finds
    them: they are 0.12, 0.003 and 0.3 per accelerometer, gyroscope and
    magnetometer axis in the initial value of the static vector, and so
    after a [ukf_init] at program start.  Gravity is 9.80665, and the
    magnetometer scale matrix starts as 45.0 times the identity. *)
Theorem ukf_init_tuning (g : Globals) (i j k l : nat) :
  (i < 9)%nat -> (j < 9)%nat -> (k < 24)%nat -> (l < 24)%nat ->
  let g' := ukf_init g in
  mcoeff (process_noise g') i j =
    (if Nat.eqb i j then process_noise_default i else 0) /\
  mcoeff (covariance (ahrs g')) i j =
    (if Nat.eqb i j then covariance_default i else 0) /\
  mcoeff (error_process_noise g') k l =
    (if Nat.eqb k l then error_process_noise_default k else 0) /\
  measurement_covariance g' = measurement_covariance g /\
  at_ (measurement_covariance startup) i = measurement_noise_default i /\
  at_ (measurement_covariance (ukf_init startup)) i =
    measurement_noise_default i /\
  G_ACCEL = 9.80665 /\
  EARTH_MAG = 45.0 /\
  MagnetometerScaleFactor (state (ahrs_errors g')) =
    (EARTH_MAG, (0, (0, (0, (EARTH_MAG, (0, (0, (0, (EARTH_MAG, tt))))))))).
Proof.
  intros Hi Hj Hk Hl g'. subst g'.
  rewrite process_noise_ukf_init, covariance_ukf_init,
    error_process_noise_ukf_init.
  rewrite !mcoeff_set_diagonal, !mcoeff_MatrixZero by assumption.
  rewrite process_noise_diagonal, covariance_diagonal,
    error_process_noise_diagonal by assumption.
  repeat split; try reflexivity.
  - now apply measurement_covariance_initial_diagonal.
  - now apply measurement_covariance_initial_diagonal.
Qed.

(** An off-diagonal entry and a magnetometer bias entry after [ukf_init]. *)
Lemma ukf_init_tuning_witness :
  (0 < 9)%nat /\ (1 < 9)%nat /\ (12 < 24)%nat /\ (12 < 24)%nat /\
  mcoeff (process_noise (ukf_init startup)) 0 1 = 0 /\
  mcoeff (error_process_noise (ukf_init startup)) 12 12 = 1.5e-2.
Proof.
  assert (H0 : (0 < 9)%nat) by lia.
  assert (H1 : (1 < 9)%nat) by lia.
  assert (H12 : (12 < 24)%nat) by lia.
  destruct (ukf_init_tuning startup 0 1 12 12 H0 H1 H12 H12)
    as (A & _ & C & _).
  split; [exact H0|]. split; [exact H1|]. split; [exact H12|].
  split; [exact H12|]. split; [exact A|exact C].
Defined.

(** C9 as it is written fails when the variances were replaced before
    [ukf_init]: they stay replaced. *)
Lemma ukf_init_keeps_replaced_measurement_covariance :
  let g := ukf_init (ukf_set_params Small.replaced_params startup) in
  at_ (measurement_covariance g) 0 = 1 /\
  at_ (measurement_covariance g) 0 <> 0.12.
Proof.
  assert (E : at_ (measurement_covariance
                (ukf_init (ukf_set_params Small.replaced_params startup))) 0 = 1)
    by reflexivity.
  cbv zeta. rewrite E. split; [reflexivity|lra].
Qed.

(** ** Run-time sized matrices *)

Lemma nth_zip_with_Rplus (l l' : list R) (j : nat) :
  length l = length l' ->
  nth j (zip_with Rplus l l') 0 = nth j l 0 + nth j l' 0.
Proof.
  revert l' j; induction l as [|a l IH]; intros [|b l'] j E;
    try discriminate.
  - destruct j; simpl; ring.
  - destruct j as [|j]; simpl; [reflexivity|]. apply IH. now injection E.
Qed.

Lemma xcoeff_zip_with (a b : MatrixX) (i j : nat) :
  shape a = shape b ->
  xcoeff (zip_with (zip_with Rplus) a b) i j = xcoeff a i j + xcoeff b i j.
Proof.
  unfold xcoeff.
  revert b i; induction a as [|r a IH]; intros [|r' b] i E;
    try discriminate.
  - destruct i, j; simpl; ring.
  - injection E as E0 E1. destruct i as [|i]; simpl.
    + now apply nth_zip_with_Rplus.
    + now apply IH.
Qed.

Lemma shape_zip_with (a b : MatrixX) :
  shape a = shape b -> shape (zip_with (zip_with Rplus) a b) = shape a.
Proof.
  revert b; induction a as [|r a IH]; intros [|r' b] E; try discriminate.
  - reflexivity.
  - injection E as E0 E1. simpl. f_equal.
    + clear -E0. revert r' E0; induction r as [|u r IHr]; intros [|u' r'] E0;
        try discriminate; [reflexivity|].
      simpl. f_equal. apply IHr. now injection E0.
    + now apply IH.
Qed.

Lemma add_assign_same_shape (a b : MatrixX) :
  shape a = shape b -> add_assign a b = Some (zip_with (zip_with Rplus) a b).
Proof.
  intros E. unfold add_assign.
  destruct (list_eq_dec Nat.eq_dec (shape a) (shape b)); [reflexivity|].
  contradiction.
Qed.


(** ** The coupling driver *)

Section DriverProperties.

Context {dead : DeadStorage}.
Context {AHRS_Filter : Steps AHRS_StateVector AHRS_SensorErrorVector 9}.
Context {AHRS_ParameterEstimationFilter :
           Steps AHRS_SensorErrorVector AHRS_StateVector 24}.

(** A tick, run symbolically: it ends exactly when the two innovation
    covariances can be added, and then it has made the seven calls. *)
Lemma ukf_iterate_run (dt : real_t) (w : World) :
  ukf_iterate dt w =
  match add_assign
          (innovation_covariance (ahrs_errors_before_injection dt (globals w)))
          (innovation_covariance (ahrs_a_posteriori dt (globals w)))
  with
  | Some m =>
      Some (tt, {| globals := tick_globals m dt (globals w);
                   calls := calls w ++ tick_calls dt (globals w) |})
  | None => None
  end.
Proof.
  destruct w as [g l].
  unfold ukf_iterate, bind, ahrs_a_priori_step, ahrs_innovation_step,
    ahrs_a_posteriori_step, ahrs_errors_a_priori_step,
    ahrs_errors_innovation_step,
    ahrs_errors_innovation_covariance_add_assign,
    ahrs_errors_a_posteriori_step, bind, read, record, update. simpl.
  match goal with
  | |- context [add_assign ?a ?b] =>
      change a with
        (innovation_covariance (ahrs_errors_before_injection dt g));
      change b with (innovation_covariance (ahrs_a_posteriori dt g))
  end.
  destruct (add_assign _ _) as [m|]; [|reflexivity].
  simpl. rewrite <- !app_assoc. reflexivity.
Qed.


(** C2.  In every tick that runs to its end, between the innovation step
    and the a-posteriori step of the parameter filter the innovation
    covariance of the AHRS filter is added, entry by entry, to that of the
    parameter filter: the object the a-posteriori step of the parameter
    filter is called on holds the sum as its innovation covariance and is
    otherwise the object its innovation step left.  The AHRS filter, its
    innovation covariance included, is what it was before the addition. *)
Theorem ukf_iterate_cross_injection (dt : real_t) (w : World) :
  same_size dt (globals w) ->
  let ahrs_c := ahrs_a_posteriori dt (globals w) in
  let errors_c := ahrs_errors_before_injection dt (globals w) in
  exists m w' l c,
    add_assign (innovation_covariance errors_c) (innovation_covariance ahrs_c)
      = Some m /\
    shape m = shape (innovation_covariance errors_c) /\
    (forall i j,
       xcoeff m i j =
       xcoeff (innovation_covariance errors_c) i j +
       xcoeff (innovation_covariance ahrs_c) i j) /\
    ukf_iterate dt w = Some (tt, w') /\
    calls w' =
      calls w ++ l ++
      [ Call_innovation_step_ahrs_errors (meas (globals w)) (state ahrs_c);
        Call_innovation_covariance_add_assign (innovation_covariance ahrs_c);
        Call_a_posteriori_step The_ahrs_errors ] /\
    ahrs_errors (globals w') =
      a_posteriori_step (set_innovation_covariance m errors_c) /\
    ahrs (globals w') = ahrs_c /\
    innovation_covariance (ahrs (globals w')) = innovation_covariance ahrs_c /\
    ahrs_errors (globals w') = a_posteriori_step c /\
    innovation_covariance c = m /\
    (forall i j,
       xcoeff (innovation_covariance c) i j =
       xcoeff (innovation_covariance errors_c) i j +
       xcoeff (innovation_covariance ahrs_c) i j) /\
    state c = state errors_c /\
    covariance c = covariance errors_c /\
    sigma_points c = sigma_points errors_c /\
    residual c = residual errors_c /\
    cross_covariance c = cross_covariance errors_c.
Proof.
  intros E; cbv zeta.
  rewrite ukf_iterate_run, (add_assign_same_shape _ _ E).
  eexists _, _, [_; _; _; _], (set_innovation_covariance _ _).
  split; [reflexivity|].
  split; [now apply shape_zip_with|].
  split; [intros i j; now apply xcoeff_zip_with|].
  split; [reflexivity|].
  split; [reflexivity|].
  split; [reflexivity|]. split; [reflexivity|]. split; [reflexivity|].
  split; [reflexivity|]. split; [reflexivity|].
  split; [intros i j; cbn [innovation_covariance set_innovation_covariance];
          now apply xcoeff_zip_with|].
  repeat split.
Qed.

(** C1, what the driver does.  In every tick that runs to its end the
    innovation step of the parameter filter is called once, and the input it
    is given is the state the AHRS filter has after its a-posteriori step.
    It is the a-priori mean exactly when the innovation step and the
    a-posteriori step of the AHRS filter have left that mean in place. *)
Theorem ukf_iterate_parameter_input (dt : real_t) (w : World) :
  same_size dt (globals w) ->
  exists w' l,
    ukf_iterate dt w = Some (tt, w') /\
    calls w' = calls w ++ l /\
    parameter_innovation_inputs l =
      [state (a_posteriori_step
                (innovation_step StateVector.expected_measurement
                   (measurement_covariance (globals w)) (meas (globals w))
                   (state (ahrs_errors (globals w)))
                   (ahrs_a_priori dt (globals w))))] /\
    (parameter_innovation_inputs l = [ahrs_a_priori_mean dt (globals w)] <->
     state (ahrs_a_posteriori dt (globals w)) =
     state (ahrs_a_priori dt (globals w))).
Proof.
  intros E. rewrite ukf_iterate_run, (add_assign_same_shape _ _ E).
  eexists _, (tick_calls dt (globals w)).
  split; [reflexivity|]. split; [reflexivity|]. split; [reflexivity|].
  unfold ahrs_a_priori_mean; simpl. split.
  - now intros [= ->].
  - now intros ->.
Qed.

End DriverProperties.

(** ** A tick on the small core *)

Lemma Small_same_size :
  @same_size Small.intact Small.AHRS_Filter Small.AHRS_ParameterEstimationFilter 0.01
    (globals Small.before_tick).
Proof.
  unfold same_size, ahrs_errors_before_injection, ahrs_errors_innovation,
    ahrs_a_posteriori, ahrs_innovation.
  cbn [innovation_step a_posteriori_step Small.AHRS_Filter
       Small.AHRS_ParameterEstimationFilter Small.steps Small.innovation
       innovation_covariance set_state].
  reflexivity.
Qed.

Lemma Small_updated_angular_velocity :
  AngularVelocity
    (state (@ahrs_a_posteriori Small.intact Small.AHRS_Filter 0.01
              (globals Small.before_tick))) = Vector3 1 0 0.
Proof.
  lazy - [Rplus Rminus Rmult Ropp Rdiv Rinv IZR].
  f_equal; [lra|]. f_equal; [lra|]. f_equal; lra.
Qed.

Lemma Small_a_priori_angular_velocity :
  AngularVelocity
    (@ahrs_a_priori_mean Small.AHRS_Filter 0.01 (globals Small.before_tick))
  = Vector3 0 0 0.
Proof. lazy - [Rplus Rminus Rmult Ropp Rdiv Rinv IZR]. reflexivity. Qed.


(** The cross injection in a tick on a gyroscope sample: the parameter
    filter's a-posteriori step is called on an object whose innovation
    covariance is the sum, entry by entry, and the AHRS filter comes out of
    the tick as its a-posteriori step left it. *)
Lemma ukf_iterate_cross_injection_witness :
  @same_size Small.intact Small.AHRS_Filter
    Small.AHRS_ParameterEstimationFilter 0.01 (globals Small.before_tick) /\
  exists w' c,
    @ukf_iterate Small.intact Small.AHRS_Filter
      Small.AHRS_ParameterEstimationFilter 0.01 Small.before_tick
      = Some (tt, w') /\
    ahrs_errors (globals w') =
      @a_posteriori_step _ _ _ Small.AHRS_ParameterEstimationFilter c /\
    (forall i j,
       xcoeff (innovation_covariance c) i j =
       xcoeff (innovation_covariance
                 (@ahrs_errors_before_injection Small.intact Small.AHRS_Filter
                    Small.AHRS_ParameterEstimationFilter 0.01
                    (globals Small.before_tick))) i j +
       xcoeff (innovation_covariance
                 (@ahrs_a_posteriori Small.intact Small.AHRS_Filter 0.01
                    (globals Small.before_tick))) i j) /\
    ahrs (globals w') =
      @ahrs_a_posteriori Small.intact Small.AHRS_Filter 0.01
        (globals Small.before_tick).
Proof.
  split; [exact Small_same_size|].
  destruct (@ukf_iterate_cross_injection Small.intact Small.AHRS_Filter
              Small.AHRS_ParameterEstimationFilter 0.01 Small.before_tick
              Small_same_size)
    as (m & w' & l & c & _ & _ & _ & Hrun & _ & _ & Hahrs & _ & Hc & _ & Hsum & _).
  exists w', c.
  split; [exact Hrun|]. split; [exact Hc|]. split; [exact Hsum|exact Hahrs].
Defined.

(** The input of the parameter filter in a tick on a gyroscope sample. *)
Lemma ukf_iterate_parameter_input_witness :
  @same_size Small.intact Small.AHRS_Filter Small.AHRS_ParameterEstimationFilter 0.01
    (globals Small.before_tick) /\
  exists w' l,
    @ukf_iterate Small.intact Small.AHRS_Filter Small.AHRS_ParameterEstimationFilter 0.01
      Small.before_tick = Some (tt, w') /\
    calls w' = calls Small.before_tick ++ l /\
    parameter_innovation_inputs l =
      [state (@ahrs_a_posteriori Small.intact Small.AHRS_Filter 0.01
                (globals Small.before_tick))].
Proof.
  split; [exact Small_same_size|].
  destruct (@ukf_iterate_parameter_input Small.intact Small.AHRS_Filter
              Small.AHRS_ParameterEstimationFilter 0.01 Small.before_tick
              Small_same_size)
    as (w' & l & Hrun & Hcalls & Hin & _).
  exists w', l. split; [exact Hrun|]. split; [exact Hcalls|exact Hin].
Defined.

(** C1 fails on a tick whose a-posteriori step moves the AHRS mean.  After
    [ukf_init] and a gyroscope sample (1, 0, 0), on the small core, the
    parameter filter's innovation step is given a state whose angular
    velocity is (1, 0, 0), while the a-priori mean of the AHRS filter has
    angular velocity (0, 0, 0). *)
Lemma ukf_iterate_passes_updated_state :
  exists w' u,
    @ukf_iterate Small.intact Small.AHRS_Filter Small.AHRS_ParameterEstimationFilter 0.01
      Small.before_tick = Some (tt, w') /\
    parameter_innovation_inputs (calls w') = [u] /\
    AngularVelocity u = Vector3 1 0 0 /\
    AngularVelocity
      (@ahrs_a_priori_mean Small.AHRS_Filter 0.01 (globals Small.before_tick))
      = Vector3 0 0 0 /\
    u <> @ahrs_a_priori_mean Small.AHRS_Filter 0.01 (globals Small.before_tick).
Proof.
  rewrite ukf_iterate_run, (add_assign_same_shape _ _ Small_same_size).
  eexists _, _.
  split; [reflexivity|]. split; [reflexivity|].
  split; [exact Small_updated_angular_velocity|].
  split; [exact Small_a_priori_angular_velocity|].
  intros F. apply (f_equal AngularVelocity) in F.
  rewrite Small_updated_angular_velocity, Small_a_priori_angular_velocity in F.
  apply (f_equal (fun v : Vector 3 => at_ v 0)) in F.
  unfold at_, Vector3 in F; simpl in F. lra.
Qed.

(** * Further properties of the models and of the interface *)

(** ** The process model *)


(** A state with no angular velocity has the zero derivative. *)
Theorem derivative_at_rest (uninit self : AHRS_StateVector) :
  AngularVelocity self = Vector3 0 0 0 ->
  StateVector.derivative uninit self = AHRS_StateVector_Zero.
Proof.
  destruct self as [[qx qy qz qw] o a]; simpl; intros ->.
  unfold StateVector.derivative, AHRS_StateVector_Zero,
    set_AngularVelocity, set_Attitude, set_Acceleration; simpl.
  f_equal. apply Quaternion_eq; coefficients; lra.
Qed.

Lemma derivative_at_rest_witness :
  AngularVelocity (state (ahrs (ukf_init startup))) = Vector3 0 0 0 /\
  StateVector.derivative AHRS_StateVector_Zero (state (ahrs (ukf_init startup)))
  = AHRS_StateVector_Zero.
Proof.
  split; [reflexivity|].
  apply (derivative_at_rest AHRS_StateVector_Zero
           (state (ahrs (ukf_init startup)))).
  reflexivity.
Defined.

(** ** The measurement model *)



(** With neutral parameters, no bias, unit scale factors and the identity
    as magnetometer matrix, the model with parameters expects of the
    accelerometer and of the gyroscope what the plain model expects, for
    every state and whatever dead storage holds; of the magnetometer it
    expects the same when the storage read after the death of the scale
    vector still holds it. *)
Theorem expected_measurement_neutral_parameters (dead : DeadStorage)
  (state : AHRS_StateVector) :
  StateVector.expected_measurement Accelerometer state neutral_parameters =
    StateVector.expected_measurement_no_input Accelerometer state /\
  StateVector.expected_measurement Gyroscope state neutral_parameters =
    StateVector.expected_measurement_no_input Gyroscope state /\
  (read_dead (MagnetometerScaleFactor neutral_parameters) =
     MagnetometerScaleFactor neutral_parameters ->
   StateVector.expected_measurement Magnetometer state neutral_parameters =
     StateVector.expected_measurement_no_input Magnetometer state).
Proof.
  unfold StateVector.expected_measurement,
    StateVector.expected_measurement_no_input.
  split; [|split].
  - unfold neutral_parameters.
    generalize (plus (Acceleration state)
                  (transformVector (Attitude state) (Vector3 0 0 (- G_ACCEL)))).
    intros [a [b [c []]]]. coefficients.
    cbv [AccelerometerBias AccelerometerScaleFactor].
    f_equal; [lra|]. f_equal; [lra|]. f_equal; lra.
  - unfold neutral_parameters.
    destruct (AngularVelocity state) as [a [b [c []]]]. coefficients.
    cbv [GyroscopeBias GyroscopeScaleFactor].
    f_equal; [lra|]. f_equal; [lra|]. f_equal; lra.
  - intros ->. unfold neutral_parameters.
    generalize (transformVector (Attitude state) (Vector3 1.0 0.0 0.0)).
    intros [a [b [c []]]]. coefficients.
    cbv [MagnetometerBias MagnetometerScaleFactor]. coefficients.
    f_equal; [lra|]. f_equal; [lra|]. f_equal; lra.
Qed.

(** With the parameters [ukf_init] sets, the filter expects of the
    accelerometer and of the gyroscope what the plain model expects, for
    every state and whatever dead storage holds; of the magnetometer it
    expects [EARTH_MAG] times what the plain model expects when the storage
    read after the death of the scale vector still holds it. *)
Theorem expected_measurement_initial_parameters (dead : DeadStorage)
  (g : Globals) (state : AHRS_StateVector) :
  let input := UKF.state (ahrs_errors (ukf_init g)) in
  StateVector.expected_measurement Accelerometer state input =
    StateVector.expected_measurement_no_input Accelerometer state /\
  StateVector.expected_measurement Gyroscope state input =
    StateVector.expected_measurement_no_input Gyroscope state /\
  (read_dead (MagnetometerScaleFactor input) = MagnetometerScaleFactor input ->
   StateVector.expected_measurement Magnetometer state input =
     scalar_times EARTH_MAG
       (StateVector.expected_measurement_no_input Magnetometer state)).
Proof.
  cbv zeta.
  assert (E : UKF.state (ahrs_errors (ukf_init g)) =
    {| AccelerometerBias := Vector3 0 0 0;
       AccelerometerScaleFactor := Vector3 1 1 1;
       GyroscopeBias := Vector3 0 0 0;
       GyroscopeScaleFactor := Vector3 1 1 1;
       MagnetometerBias := Vector3 0 0 0;
       MagnetometerScaleFactor :=
         (EARTH_MAG, (0, (0, (0, (EARTH_MAG, (0, (0, (0, (EARTH_MAG, tt))))))))) |})
    by reflexivity.
  rewrite E; clear E.
  unfold StateVector.expected_measurement,
    StateVector.expected_measurement_no_input.
  split; [|split].
  - generalize (plus (Acceleration state)
                  (transformVector (Attitude state) (Vector3 0 0 (- G_ACCEL)))).
    intros [a [b [c []]]]. coefficients.
    cbv [AccelerometerBias AccelerometerScaleFactor].
    f_equal; [lra|]. f_equal; [lra|]. f_equal; lra.
  - destruct (AngularVelocity state) as [a [b [c []]]]. coefficients.
    cbv [GyroscopeBias GyroscopeScaleFactor].
    f_equal; [lra|]. f_equal; [lra|]. f_equal; lra.
  - intros ->.
    generalize (transformVector (Attitude state) (Vector3 1.0 0.0 0.0)).
    intros [a [b [c []]]]. coefficients.
    cbv [MagnetometerBias MagnetometerScaleFactor]. coefficients.
    f_equal; [lra|]. f_equal; [lra|]. f_equal; lra.
Qed.



(** ** The flat interface *)

(** Writing a struct with [ukf_set_state] and reading the state back with
    [ukf_get_state] gives that struct, whatever the struct read into held.
    [ukf_set_state] is the three setters one after the other, and it leaves
    everything but the mean of the AHRS filter as it was. *)
Theorem ukf_set_state_get_state (in_ out : ukf_state_t) (g : Globals) :
  fst (ukf_get_state out (ukf_set_state in_ g)) = in_ /\
  ukf_set_state in_ g =
    ukf_set_angular_velocity
      (at_ (angular_velocity in_) 0) (at_ (angular_velocity in_) 1)
      (at_ (angular_velocity in_) 2)
      (ukf_set_attitude
         (at_ (attitude in_) 3) (at_ (attitude in_) 0)
         (at_ (attitude in_) 1) (at_ (attitude in_) 2)
         (ukf_set_acceleration
            (at_ (acceleration in_) 0) (at_ (acceleration in_) 1)
            (at_ (acceleration in_) 2) g)) /\
  set_ahrs (set_state (state (ahrs g)) (ahrs (ukf_set_state in_ g)))
    (ukf_set_state in_ g) = g.
Proof.
  destruct in_ as [[t0 [t1 [t2 [t3 []]]]] [u0 [u1 [u2 []]]] [v0 [v1 [v2 []]]]].
  destruct out as [[a0 [a1 [a2 [a3 []]]]] [b0 [b1 [b2 []]]] [c0 [c1 [c2 []]]]].
  destruct g as [pn epn [s p sp r ic cc] e m mc].
  repeat split.
Qed.

(** [ukf_init] done twice is [ukf_init] done once.  It does not clear the
    measurement vector, it does not touch the measurement variances, and it
    leaves in both filter objects the sigma points, the residual, the
    innovation covariance and the cross covariance of the last tick. *)
Theorem ukf_init_idempotent (g : Globals) :
  ukf_init (ukf_init g) = ukf_init g /\
  meas (ukf_init g) = meas g /\
  measurement_covariance (ukf_init g) = measurement_covariance g /\
  sigma_points (ahrs (ukf_init g)) = sigma_points (ahrs g) /\
  residual (ahrs (ukf_init g)) = residual (ahrs g) /\
  innovation_covariance (ahrs (ukf_init g)) = innovation_covariance (ahrs g) /\
  cross_covariance (ahrs (ukf_init g)) = cross_covariance (ahrs g) /\
  sigma_points (ahrs_errors (ukf_init g)) = sigma_points (ahrs_errors g) /\
  residual (ahrs_errors (ukf_init g)) = residual (ahrs_errors g) /\
  innovation_covariance (ahrs_errors (ukf_init g)) =
    innovation_covariance (ahrs_errors g) /\
  cross_covariance (ahrs_errors (ukf_init g)) =
    cross_covariance (ahrs_errors g).
Proof.
  repeat split.
Qed.

(** After [ukf_init] the state the accessor reads is the identity attitude
    (0, 0, 0, 1 in x, y, z, w order) with no angular velocity and no
    acceleration, whatever the statics held before. *)
Theorem ukf_init_get_state (out : ukf_state_t) (g : Globals) :
  fst (ukf_get_state out (ukf_init g)) =
    {| attitude := (0, (0, (0, (1, tt))));
       angular_velocity := Vector3 0 0 0;
       acceleration := Vector3 0 0 0 |} /\
  squaredNorm (Attitude (state (ahrs (ukf_init g)))) = 1.
Proof.
  destruct out as [[a0 [a1 [a2 [a3 []]]]] [b0 [b1 [b2 []]]] [c0 [c1 [c2 []]]]].
  split; [reflexivity|].
  change (Attitude (state (ahrs (ukf_init g)))) with (Quaternion_ 1 0 0 0).
  unfold squaredNorm; simpl. lra.
Qed.

Lemma error_covariance_ukf_init (g : Globals) :
  covariance (ahrs_errors (ukf_init g)) =
  set_diagonal (MatrixZero 24 24)
    (scalar 0.49 ,, scalar 0.49 ,, scalar 0.784 ,,
     scalar_times 3.0e-2 (Ones 3) ,,
     scalar_times 0.35 (Ones 3) ,, scalar_times 3.0e-2 (Ones 3) ,,
     scalar_times 1.0e1 (Ones 3) ,,
     scalar_times (5.0e-2 * EARTH_MAG) (Ones 9)).
Proof. reflexivity. Qed.

Lemma error_covariance_diagonal (i : nat) :
  (i < 24)%nat ->
  at_ (n := 24)
    (scalar 0.49 ,, scalar 0.49 ,, scalar 0.784 ,,
     scalar_times 3.0e-2 (Ones 3) ,,
     scalar_times 0.35 (Ones 3) ,, scalar_times 3.0e-2 (Ones 3) ,,
     scalar_times 1.0e1 (Ones 3) ,,
     scalar_times (5.0e-2 * EARTH_MAG) (Ones 9)) i =
  error_covariance_default i.
Proof.
  intros Hi.
  do 24 (destruct i as [|i];
    [cbv [at_ coeff comma scalar scalar_times Ones Zero Constant tabulate
          tabulate_from vmap fst snd error_covariance_default EARTH_MAG
          Nat.ltb Nat.leb]; lra|]).
  lia.
Qed.

(** After [ukf_init] the covariance of the parameter filter is diagonal:
    0.49, 0.49, 0.784 for the accelerometer bias, 0.03 per accelerometer
    scale axis, 0.35 per gyroscope bias axis, 0.03 per gyroscope scale
    axis, 10 per magnetometer bias axis and 2.25, that is 0.05 times
    [EARTH_MAG], for each of the nine magnetometer scale entries. *)
Theorem ukf_init_error_covariance (g : Globals) (i j : nat) :
  (i < 24)%nat -> (j < 24)%nat ->
  mcoeff (covariance (ahrs_errors (ukf_init g))) i j =
    if Nat.eqb i j then error_covariance_default i else 0.
Proof.
  intros Hi Hj.
  rewrite error_covariance_ukf_init, mcoeff_set_diagonal, mcoeff_MatrixZero
    by assumption.
  now rewrite error_covariance_diagonal.
Qed.

Lemma ukf_init_error_covariance_witness :
  (2 < 24)%nat /\ (2 < 24)%nat /\
  mcoeff (covariance (ahrs_errors (ukf_init startup))) 2 2 = 0.784.
Proof.
  assert (H : (2 < 24)%nat) by lia.
  split; [exact H|]. split; [exact H|].
  exact (ukf_init_error_covariance startup 2 2 H H).
Defined.

(** [ukf_set_params] puts the nine variances in the order accelerometer,
    gyroscope, magnetometer and changes nothing else; and it commutes with
    [ukf_init], so variances set before a reset are still there after
    it. *)
Theorem ukf_set_params_ukf_init (in_ : ukf_sensor_params_t) (g : Globals) :
  measurement_covariance (ukf_set_params in_ g) =
    (at_ (accel_covariance in_) 0, (at_ (accel_covariance in_) 1,
    (at_ (accel_covariance in_) 2, (at_ (gyro_covariance in_) 0,
    (at_ (gyro_covariance in_) 1, (at_ (gyro_covariance in_) 2,
    (at_ (mag_covariance in_) 0, (at_ (mag_covariance in_) 1,
    (at_ (mag_covariance in_) 2, tt))))))))) /\
  ukf_init (ukf_set_params in_ g) = ukf_set_params in_ (ukf_init g) /\
  measurement_covariance (ukf_init (ukf_set_params in_ g)) =
    measurement_covariance (ukf_set_params in_ g) /\
  set_measurement_covariance (measurement_covariance g) (ukf_set_params in_ g)
    = g.
Proof.
  destruct g; repeat split.
Qed.

(** ** Process noise and covariance through the interface *)

Lemma mcoeff_ukf_set_process_noise (d : Vector 9) (g : Globals) (i j : nat) :
  (i < 9)%nat -> (j < 9)%nat ->
  mcoeff (process_noise (ukf_set_process_noise d g)) i j =
    if Nat.eqb i j then at_ d i else 0.
Proof.
  intros Hi Hj.
  unfold ukf_set_process_noise; cbn [process_noise set_process_noise].
  now rewrite mcoeff_set_diagonal, mcoeff_MatrixZero.
Qed.

(** After [ukf_set_process_noise] the process noise is the diagonal matrix
    of the nine values given, whatever it was before, so the process noise
    covariance of a step of [dt] is [dt] times the value on the diagonal
    and zero off it.  Nothing else changes.  A later [ukf_init] puts the
    defaults back: unlike the measurement variances, a process noise set
    through the interface does not outlive a reset. *)
Theorem ukf_set_process_noise_diagonal
  (d : Vector 9) (g : Globals) (dt : real_t) (i j : nat) :
  (i < 9)%nat -> (j < 9)%nat ->
  let g' := ukf_set_process_noise d g in
  mcoeff (process_noise g') i j = (if Nat.eqb i j then at_ d i else 0) /\
  mcoeff (StateVector.process_noise_covariance g' dt) i j =
    (if Nat.eqb i j then at_ d i * dt else 0) /\
  set_process_noise (process_noise g) g' = g /\
  process_noise (ukf_init g') = process_noise (ukf_init g).
Proof.
  intros Hi Hj g'. subst g'.
  split; [now apply mcoeff_ukf_set_process_noise|]. split.
  - unfold StateVector.process_noise_covariance.
    rewrite mcoeff_mtimes_scalar, mcoeff_ukf_set_process_noise by assumption.
    destruct (Nat.eqb i j); ring.
  - destruct g; repeat split.
Qed.

Lemma ukf_set_process_noise_diagonal_witness :
  (4 < 9)%nat /\ (4 < 9)%nat /\
  mcoeff
    (StateVector.process_noise_covariance
       (ukf_set_process_noise (Ones 9) startup) 0.01) 4 4 = 1 * 0.01.
Proof.
  assert (H : (4 < 9)%nat) by lia.
  split; [exact H|]. split; [exact H|].
  exact (proj1 (proj2
    (ukf_set_process_noise_diagonal (Ones 9) startup 0.01 4 4 H H))).
Defined.

(** Handing [ukf_set_process_noise] the default diagonal gives the process
    noise [ukf_init] sets. *)
Theorem ukf_set_process_noise_default (g : Globals) (i j : nat) :
  (i < 9)%nat -> (j < 9)%nat ->
  mcoeff (process_noise
            (ukf_set_process_noise (tabulate 9 process_noise_default) g)) i j =
  mcoeff (process_noise (ukf_init g)) i j.
Proof.
  intros Hi Hj.
  rewrite mcoeff_ukf_set_process_noise, process_noise_ukf_init,
    mcoeff_set_diagonal, mcoeff_MatrixZero, process_noise_diagonal
    by assumption.
  unfold at_. now rewrite coeff_tabulate.
Qed.

Lemma ukf_set_process_noise_default_witness :
  (7 < 9)%nat /\ (7 < 9)%nat /\
  mcoeff (process_noise
            (ukf_set_process_noise (tabulate 9 process_noise_default) startup))
    7 7 =
  mcoeff (process_noise (ukf_init startup)) 7 7.
Proof.
  assert (H : (7 < 9)%nat) by lia.
  split; [exact H|]. split; [exact H|].
  exact (ukf_set_process_noise_default startup 7 7 H H).
Defined.

Lemma Rabs_le_sum (n : nat) (v : Vector n) (i : nat) :
  (i < n)%nat -> Rabs (at_ v i) <= sum (vmap Rabs v).
Proof.
  revert v i; induction n as [|n IH]; intros v i Hi; [lia|].
  destruct v as [a v].
  assert (P : forall m (u : Vector m), 0 <= sum (vmap Rabs u)).
  { clear. induction m as [|m IHm]; intros u; simpl; [lra|].
    pose proof (Rabs_pos (fst u)). specialize (IHm (snd u)). lra. }
  destruct i as [|i]; simpl.
  - specialize (P n v). unfold at_; simpl. lra.
  - assert (Hi' : (i < n)%nat) by lia.
    specialize (IH v i Hi'). pose proof (Rabs_pos a).
    unfold at_ in *; simpl. lra.
Qed.

Lemma sum_Rabs_nonneg (n : nat) (v : Vector n) : 0 <= sum (vmap Rabs v).
Proof.
  induction n as [|n IH]; simpl; [lra|].
  pose proof (Rabs_pos (fst v)). specialize (IH (snd v)). lra.
Qed.

Lemma sum_Rabs_zero (n : nat) (v : Vector n) :
  (forall j, (j < n)%nat -> at_ v j = 0) -> sum (vmap Rabs v) = 0.
Proof.
  induction n as [|n IH]; intros Z; [reflexivity|].
  destruct v as [a v]. simpl.
  assert (A : a = 0) by (apply (Z 0%nat); lia).
  rewrite A, Rabs_R0, IH; [ring|].
  intros j Hj. apply (Z (S j)). lia.
Qed.

Lemma sum_Rabs_single (n : nat) (v : Vector n) (i : nat) :
  (i < n)%nat ->
  (forall j, (j < n)%nat -> j <> i -> at_ v j = 0) ->
  sum (vmap Rabs v) = Rabs (at_ v i).
Proof.
  revert v i; induction n as [|n IH]; intros v i Hi Z; [lia|].
  destruct v as [a v]. destruct i as [|i]; simpl.
  - rewrite sum_Rabs_zero; [unfold at_; simpl; ring|].
    intros j Hj. apply (Z (S j)); lia.
  - assert (A : a = 0) by (apply (Z 0%nat); lia).
    rewrite A, Rabs_R0, (IH v i); [unfold at_; simpl; ring|lia|].
    intros j Hj Hn. apply (Z (S j)); lia.
Qed.

Lemma at_ukf_get_state_error (g : Globals) (i : nat) :
  (i < 9)%nat ->
  at_ (fst (ukf_get_state_error g)) i =
  sqrt (sum (vmap Rabs (coeff (Zero 9) (n := 9) (covariance (ahrs g)) i))).
Proof.
  intros Hi.
  unfold ukf_get_state_error, fst, cwiseSqrt, rowwise_sum, cwiseAbs, at_.
  rewrite (coeff_vmap _ 0) by assumption.
  rewrite (coeff_vmap _ (Zero 9)) by assumption.
  now rewrite (coeff_vmap _ (Zero 9)) by assumption.
Qed.

Lemma at_diagonal (n : nat) (m : Matrix n n) (i : nat) :
  (i < n)%nat -> at_ (diagonal m) i = mcoeff m i i.
Proof. intros Hi. unfold diagonal, at_ at 1. now rewrite coeff_tabulate. Qed.

(** [ukf_get_state_covariance] lays the covariance out column after column:
    entry (i, j) is written at index [i + 9 * j], so that reading the array
    row by row gives the transpose.  [ukf_get_state_covariance_diagonal]
    writes entry (i, i) at index [i], which the full array has at index
    [10 * i].  Neither changes the statics. *)
Theorem ukf_get_state_covariance_layout (g : Globals) (i j : nat) :
  (i < 9)%nat -> (j < 9)%nat ->
  at_ (fst (ukf_get_state_covariance g)) (i + 9 * j) =
    mcoeff (covariance (ahrs g)) i j /\
  at_ (fst (ukf_get_state_covariance g)) (9 * i + j) =
    mcoeff (covariance (ahrs g)) j i /\
  at_ (fst (ukf_get_state_covariance_diagonal g)) i =
    at_ (fst (ukf_get_state_covariance g)) (10 * i) /\
  snd (ukf_get_state_covariance g) = g /\
  snd (ukf_get_state_covariance_diagonal g) = g.
Proof.
  intros Hi Hj.
  assert (L : forall a b, (a < 9)%nat -> (b < 9)%nat ->
    at_ (fst (ukf_get_state_covariance g)) (a + 9 * b) =
    mcoeff (covariance (ahrs g)) a b).
  { intros a b Ha Hb.
    unfold ukf_get_state_covariance, fst, Map_assign_Matrix9, at_ at 1.
    rewrite coeff_tabulate by lia.
    replace (a + 9 * b)%nat with (a + b * 9)%nat by lia.
    rewrite Nat.Div0.mod_add, Nat.div_add, Nat.mod_small, Nat.div_small
      by lia.
    reflexivity. }
  split; [now apply L|]. split.
  - replace (9 * i + j)%nat with (j + 9 * i)%nat by lia. now apply L.
  - split; [|split; reflexivity].
    replace (10 * i)%nat with (i + 9 * i)%nat by lia. rewrite L by assumption.
    unfold ukf_get_state_covariance_diagonal, fst. now apply at_diagonal.
Qed.

Lemma ukf_get_state_covariance_layout_witness :
  (6 < 9)%nat /\ (2 < 9)%nat /\
  at_ (fst (ukf_get_state_covariance (ukf_init startup))) (6 + 9 * 2) =
    mcoeff (covariance (ahrs (ukf_init startup))) 6 2.
Proof.
  assert (H6 : (6 < 9)%nat) by lia. assert (H2 : (2 < 9)%nat) by lia.
  split; [exact H6|]. split; [exact H2|].
  exact (proj1 (ukf_get_state_covariance_layout (ukf_init startup) 6 2 H6 H2)).
Defined.

(** The error [ukf_get_state_error] reports for an axis is the square root
    of a sum that is never negative, and it is at least the square root of
    the absolute value of the variance [ukf_get_state_covariance_diagonal]
    reports for that axis; the two are equal when the row has nothing off
    the diagonal. *)
Theorem ukf_get_state_error_bounds (g : Globals) (i : nat) :
  (i < 9)%nat ->
  let variance := at_ (fst (ukf_get_state_covariance_diagonal g)) i in
  let error := at_ (fst (ukf_get_state_error g)) i in
  0 <= sum_f_R0 (fun j => Rabs (mcoeff (covariance (ahrs g)) i j)) 8 /\
  0 <= error /\
  sqrt (Rabs variance) <= error /\
  ((forall j, (j < 9)%nat -> j <> i -> mcoeff (covariance (ahrs g)) i j = 0) ->
   error = sqrt (Rabs variance)).
Proof.
  intros Hi variance error.
  assert (V : variance = mcoeff (covariance (ahrs g)) i i).
  { subst variance. unfold ukf_get_state_covariance_diagonal, fst.
    now apply at_diagonal. }
  assert (E : error =
    sqrt (sum (vmap Rabs (coeff (Zero 9) (n := 9) (covariance (ahrs g)) i)))).
  { subst error. now apply at_ukf_get_state_error. }
  set (row := coeff (Zero 9) (n := 9) (covariance (ahrs g)) i) in *.
  assert (S : sum_f_R0 (fun j => Rabs (mcoeff (covariance (ahrs g)) i j)) 8 =
              sum (vmap Rabs row)).
  { rewrite sum_sum_f_R0. apply sum_eq; intros j Hj.
    unfold mcoeff, at_. fold row. now rewrite (coeff_vmap _ 0) by lia. }
  split; [rewrite S; apply sum_Rabs_nonneg|].
  split; [rewrite E; apply sqrt_pos|].
  split.
  - rewrite E, V. apply sqrt_le_1_alt.
    unfold mcoeff. fold row. now apply Rabs_le_sum.
  - intros D. rewrite E, V. f_equal.
    unfold mcoeff in *. fold row in D |- *.
    now apply sum_Rabs_single.
Qed.

Lemma ukf_get_state_error_bounds_witness :
  (6 < 9)%nat /\
  sqrt (Rabs (at_ (fst (ukf_get_state_covariance_diagonal (ukf_init startup))) 6))
  <= at_ (fst (ukf_get_state_error (ukf_init startup))) 6.
Proof.
  assert (H : (6 < 9)%nat) by lia.
  split; [exact H|].
  exact (proj1 (proj2 (proj2
    (ukf_get_state_error_bounds (ukf_init startup) 6 H)))).
Defined.

(** ** A level attitude, the initial error, and the setters *)

(** At the identity attitude the plain model expects of the accelerometer
    the acceleration plus (0, 0, -G_ACCEL), and of the magnetometer
    (1, 0, 0): gravity is along minus z and north along x. *)
Theorem expected_measurement_level (state : AHRS_StateVector) :
  Attitude state = Quaternion_ 1 0 0 0 ->
  StateVector.expected_measurement_no_input Accelerometer state =
    plus (Acceleration state) (Vector3 0 0 (- G_ACCEL)) /\
  StateVector.expected_measurement_no_input Magnetometer state = Vector3 1 0 0.
Proof.
  intros H. unfold StateVector.expected_measurement_no_input. rewrite H.
  split.
  - f_equal. coefficients. f_equal; [lra|]. f_equal; [lra|]. f_equal; lra.
  - coefficients. f_equal; [lra|]. f_equal; [lra|]. f_equal; lra.
Qed.

Lemma expected_measurement_level_witness :
  Attitude (UKF.state (ahrs (ukf_init startup))) = Quaternion_ 1 0 0 0 /\
  StateVector.expected_measurement_no_input Magnetometer
    (UKF.state (ahrs (ukf_init startup))) = Vector3 1 0 0.
Proof.
  split; [reflexivity|].
  exact (proj2 (expected_measurement_level
                  (UKF.state (ahrs (ukf_init startup))) eq_refl)).
Defined.

(** After [ukf_init] the error [ukf_get_state_error] reports is 1 on the
    three attitude axes and on the three angular velocity axes, and the
    square root of 5 on the three acceleration axes. *)
Theorem ukf_init_state_error (g : Globals) (i : nat) :
  (i < 9)%nat ->
  at_ (fst (ukf_get_state_error (ukf_init g))) i =
    if (i <? 6)%nat then 1 else sqrt 5.
Proof.
  intros Hi. rewrite at_ukf_get_state_error by assumption.
  rewrite (sum_Rabs_single _ _ i Hi).
  - change (at_ (coeff (Zero 9) (n := 9) (covariance (ahrs (ukf_init g))) i) i)
      with (mcoeff (covariance (ahrs (ukf_init g))) i i).
    rewrite covariance_ukf_init, mcoeff_set_diagonal, Nat.eqb_refl,
      covariance_diagonal by assumption.
    unfold covariance_default. destruct (i <? 6)%nat.
    + rewrite Rabs_R1. apply sqrt_1.
    + f_equal. apply Rabs_pos_eq. lra.
  - intros j Hj Hn.
    change (at_ (coeff (Zero 9) (n := 9) (covariance (ahrs (ukf_init g))) i) j)
      with (mcoeff (covariance (ahrs (ukf_init g))) i j).
    rewrite covariance_ukf_init, mcoeff_set_diagonal, mcoeff_MatrixZero
      by assumption.
    destruct (Nat.eqb_spec i j); [congruence|reflexivity].
Qed.

Lemma ukf_init_state_error_witness :
  (7 < 9)%nat /\
  at_ (fst (ukf_get_state_error (ukf_init startup))) 7 = sqrt 5.
Proof.
  assert (H : (7 < 9)%nat) by lia.
  split; [exact H|].
  exact (ukf_init_state_error startup 7 H).
Defined.

(** The three setters write one field of the mean each: setters of
    different fields commute, and of two calls of one setter the later one
    stands. *)
Theorem setters_commute (g : Globals) (w0 x0 y0 z0 a0 a1 a2 o0 o1 o2 : real_t) :
  ukf_set_attitude w0 x0 y0 z0 (ukf_set_acceleration a0 a1 a2 g) =
    ukf_set_acceleration a0 a1 a2 (ukf_set_attitude w0 x0 y0 z0 g) /\
  ukf_set_angular_velocity o0 o1 o2 (ukf_set_acceleration a0 a1 a2 g) =
    ukf_set_acceleration a0 a1 a2 (ukf_set_angular_velocity o0 o1 o2 g) /\
  ukf_set_angular_velocity o0 o1 o2 (ukf_set_attitude w0 x0 y0 z0 g) =
    ukf_set_attitude w0 x0 y0 z0 (ukf_set_angular_velocity o0 o1 o2 g) /\
  (forall w1 x1 y1 z1,
     ukf_set_attitude w0 x0 y0 z0 (ukf_set_attitude w1 x1 y1 z1 g) =
     ukf_set_attitude w0 x0 y0 z0 g) /\
  (forall b0 b1 b2,
     ukf_set_acceleration a0 a1 a2 (ukf_set_acceleration b0 b1 b2 g) =
     ukf_set_acceleration a0 a1 a2 g) /\
  (forall p0 p1 p2,
     ukf_set_angular_velocity o0 o1 o2 (ukf_set_angular_velocity p0 p1 p2 g) =
     ukf_set_angular_velocity o0 o1 o2 g).
Proof.
  repeat split.
Qed.

(** ** The coupling driver, further *)

Section DriverFurther.

Context {dead : DeadStorage}.
Context {AHRS_Filter : Steps AHRS_StateVector AHRS_SensorErrorVector 9}.
Context {AHRS_ParameterEstimationFilter :
           Steps AHRS_SensorErrorVector AHRS_StateVector 24}.


(** A tick changes the two filter objects only: the process noise of both
    filters, the measurement variances and the measurement vector are after
    the tick what they were before it.  In particular a tick does not clear
    the measurement vector. *)
Theorem ukf_iterate_keeps_parameters (dt : real_t) (w : World) :
  same_size dt (globals w) ->
  exists w',
    ukf_iterate dt w = Some (tt, w') /\
    process_noise (globals w') = process_noise (globals w) /\
    error_process_noise (globals w') = error_process_noise (globals w) /\
    measurement_covariance (globals w') = measurement_covariance (globals w) /\
    meas (globals w') = meas (globals w).
Proof.
  intros E. rewrite ukf_iterate_run, (add_assign_same_shape _ _ E).
  eexists. repeat split.
Qed.

(** In a tick both innovation steps are given the measurement vector the
    statics hold when the tick starts, and the innovation step of the AHRS
    filter is given the mean the parameter filter has when the tick starts:
    the update the parameter filter makes in a tick reaches the AHRS filter
    in the next one. *)
Theorem ukf_iterate_innovation_arguments (dt : real_t) (w : World) :
  same_size dt (globals w) ->
  exists w' l u,
    ukf_iterate dt w = Some (tt, w') /\
    calls w' = calls w ++ l /\
    nth_error l 1 =
      Some (Call_innovation_step_ahrs (meas (globals w))
              (state (ahrs_errors (globals w)))) /\
    nth_error l 4 =
      Some (Call_innovation_step_ahrs_errors (meas (globals w)) u) /\
    ahrs (globals w') =
      a_posteriori_step
        (innovation_step StateVector.expected_measurement
           (measurement_covariance (globals w)) (meas (globals w))
           (state (ahrs_errors (globals w)))
           (a_priori_step (StateVector.derivative AHRS_StateVector_Zero)
              (StateVector.process_noise_covariance (globals w)) dt
              (ahrs (globals w)))).
Proof.
  intros E. rewrite ukf_iterate_run, (add_assign_same_shape _ _ E).
  eexists _, (tick_calls dt (globals w)), _. repeat split.
Qed.

End DriverFurther.

(** Within a tick the coupling goes one way: what the tick makes of the
    AHRS filter object does not depend on the implementation of the
    parameter filter, nor on anything the parameter filter holds but its
    mean. *)
Theorem ukf_iterate_ahrs_independent (D : DeadStorage)
  (A : Steps AHRS_StateVector AHRS_SensorErrorVector 9)
  (E1 E2 : Steps AHRS_SensorErrorVector AHRS_StateVector 24)
  (dt : real_t) (w1 w2 w1' w2' : World) :
  ahrs (globals w1) = ahrs (globals w2) ->
  state (ahrs_errors (globals w1)) = state (ahrs_errors (globals w2)) ->
  process_noise (globals w1) = process_noise (globals w2) ->
  measurement_covariance (globals w1) = measurement_covariance (globals w2) ->
  meas (globals w1) = meas (globals w2) ->
  @ukf_iterate D A E1 dt w1 = Some (tt, w1') ->
  @ukf_iterate D A E2 dt w2 = Some (tt, w2') ->
  ahrs (globals w1') = ahrs (globals w2').
Proof.
  intros Ha Hs Hp Hc Hm R1 R2.
  rewrite ukf_iterate_run in R1. rewrite ukf_iterate_run in R2.
  destruct (add_assign _ _) as [m1|] in R1; [|discriminate].
  destruct (add_assign _ _) as [m2|] in R2; [|discriminate].
  injection R1 as <-. injection R2 as <-.
  cbn [globals]. unfold tick_globals. cbn [ahrs set_ahrs_errors set_ahrs].
  unfold ahrs_a_posteriori, ahrs_innovation, ahrs_a_priori,
    StateVector.process_noise_covariance.
  now rewrite Ha, Hs, Hp, Hc, Hm.
Qed.

Lemma Small_same_size_any
  (move : AHRS_SensorErrorVector -> list R -> AHRS_SensorErrorVector) :
  @same_size Small.intact Small.AHRS_Filter (Small.steps move) 0.01
    (globals Small.before_tick).
Proof.
  unfold same_size, ahrs_errors_before_injection, ahrs_errors_innovation,
    ahrs_a_posteriori, ahrs_innovation.
  cbn [innovation_step a_posteriori_step Small.AHRS_Filter Small.steps
       Small.innovation innovation_covariance set_state].
  reflexivity.
Qed.

Lemma Small_runs
  (move : AHRS_SensorErrorVector -> list R -> AHRS_SensorErrorVector) :
  exists w',
    @ukf_iterate Small.intact Small.AHRS_Filter (Small.steps move) 0.01 Small.before_tick
    = Some (tt, w').
Proof.
  rewrite ukf_iterate_run, (add_assign_same_shape _ _ (Small_same_size_any move)).
  eexists; reflexivity.
Qed.

(** A tick on a gyroscope sample keeps the measurement vector. *)
Lemma ukf_iterate_keeps_parameters_witness :
  @same_size Small.intact Small.AHRS_Filter Small.AHRS_ParameterEstimationFilter 0.01
    (globals Small.before_tick) /\
  exists w',
    @ukf_iterate Small.intact Small.AHRS_Filter Small.AHRS_ParameterEstimationFilter 0.01
      Small.before_tick = Some (tt, w') /\
    meas (globals w') = meas (globals Small.before_tick).
Proof.
  split; [exact Small_same_size|].
  destruct (@ukf_iterate_keeps_parameters Small.intact Small.AHRS_Filter
              Small.AHRS_ParameterEstimationFilter 0.01 Small.before_tick
              Small_same_size)
    as (w' & Hrun & _ & _ & _ & Hmeas).
  exists w'. split; [exact Hrun|exact Hmeas].
Defined.

(** The arguments of the AHRS innovation step in a tick on a gyroscope
    sample. *)
Lemma ukf_iterate_innovation_arguments_witness :
  @same_size Small.intact Small.AHRS_Filter Small.AHRS_ParameterEstimationFilter 0.01
    (globals Small.before_tick) /\
  exists w' l,
    @ukf_iterate Small.intact Small.AHRS_Filter Small.AHRS_ParameterEstimationFilter 0.01
      Small.before_tick = Some (tt, w') /\
    nth_error l 1 =
      Some (Call_innovation_step_ahrs (meas (globals Small.before_tick))
              (state (ahrs_errors (globals Small.before_tick)))).
Proof.
  split; [exact Small_same_size|].
  destruct (@ukf_iterate_innovation_arguments Small.intact Small.AHRS_Filter
              Small.AHRS_ParameterEstimationFilter 0.01 Small.before_tick
              Small_same_size)
    as (w' & l & u & Hrun & _ & H1 & _).
  exists w', l. split; [exact Hrun|exact H1].
Defined.

(** Two parameter cores, one that keeps its mean and one that resets it,
    leave the same AHRS filter object after a tick on a gyroscope
    sample. *)
Lemma ukf_iterate_ahrs_independent_witness :
  exists w1' w2',
    @ukf_iterate Small.intact Small.AHRS_Filter (Small.steps (fun s _ => s)) 0.01
      Small.before_tick = Some (tt, w1') /\
    @ukf_iterate Small.intact Small.AHRS_Filter
      (Small.steps (fun _ _ => AHRS_SensorErrorVector_Zero)) 0.01
      Small.before_tick = Some (tt, w2') /\
    ahrs (globals w1') = ahrs (globals w2').
Proof.
  destruct (Small_runs (fun s _ => s)) as [w1' R1].
  destruct (Small_runs (fun _ _ => AHRS_SensorErrorVector_Zero)) as [w2' R2].
  exists w1', w2'. split; [exact R1|]. split; [exact R2|].
  exact (ukf_iterate_ahrs_independent Small.intact Small.AHRS_Filter
           (Small.steps (fun s _ => s))
           (Small.steps (fun _ _ => AHRS_SensorErrorVector_Zero))
           0.01 Small.before_tick Small.before_tick w1' w2'
           eq_refl eq_refl eq_refl eq_refl eq_refl R1 R2).
Defined.

(** A tick stops on the assertion when the parameter core leaves its
    innovation covariance empty while the AHRS core sizes its own by the
    gyroscope sample. *)
Lemma ukf_iterate_stops_on_sizes :
  @ukf_iterate Small.intact Small.AHRS_Filter Idle 0.01 Small.before_tick = None.
Proof.
  rewrite ukf_iterate_run.
  unfold ahrs_errors_before_injection, ahrs_errors_innovation,
    ahrs_errors_a_priori, ahrs_a_posteriori, ahrs_innovation.
  cbn [innovation_step a_priori_step a_posteriori_step Small.AHRS_Filter Idle
       Small.steps Small.innovation innovation_covariance set_state].
  reflexivity.
Qed.
